(** * CurveWidget: the day-time curve editor of the render pipeline

    A shallow embedding of [Toolkit/DayTimeEditor/CurveWidget.py] and the
    properties of its pointer-driven editing loop and its preview bar.

    Conventions of the embedding.
    - Python [int]s (pixel coordinates, widget sizes) are [Z]; Python
      [float]s are exact rationals [Q], so rounding of binary floating point
      is idealised away.  Every division of the source by a value that can be
      zero goes through [py_div], which raises [ZeroDivisionError] on a zero
      divisor as Python does; only the divisions by the literals 6 and 20
      are plain divisions.
    - Curve objects are mutable and are referred to by the widget, not owned
      by it.  They live in a store [heap] indexed by object identity;
      [_curves] is the list of references the widget displays, so the same
      Curve object may be displayed twice.
    - Exceptions are the [Raise] results of an error monad.
    - Calls of the injected change handler are logged in [changes], each with
      the control points of the displayed curves at the moment of the call;
      calls of [QWidget.update] are counted in [updates]; the painter calls
      of [_draw] are returned as a list of commands. *)

From Stdlib Require Import ZArith QArith Qabs Qminmax Qround Lia Lqa Ascii.
From stdpp Require Import base tactics option list strings pretty.

Local Open Scope Z_scope.

(** ** Python numbers *)

Definition Qltb (x y : Q) : bool :=
  match (x ?= y)%Q with Lt => true | _ => false end.

(** [int(v)] of a float truncates towards zero. *)
Definition py_int (v : Q) : Z := Z.quot (Qnum v) (Zpos (Qden v)).

(** [range(n)] for an integer [n]. *)
Definition py_range (n : Z) : list Z := seqZ 0 n.

(** [o is None]. *)
Definition is_None {A} (o : option A) : bool :=
  match o with None => true | Some _ => false end.

(** [enumerate(l)]. *)
Definition enumerate {A} (l : list A) : list (nat * A) := imap pair l.

(** ** Exceptions *)

Inductive PyError : Type :=
| ZeroDivisionError
| IndexError
| InvalidControlPointIndex.

Inductive result (A : Type) : Type :=
| Return (a : A)
| Raise (e : PyError).
Arguments Return {A} a.
Arguments Raise {A} e.

#[global] Instance result_ret : MRet result := @Return.
#[global] Instance result_bind : MBind result := fun A B f m =>
  match m with
  | Return a => f a
  | Raise e => Raise e
  end.

Fixpoint foldM {A B} (f : A -> B -> result A) (a : A) (l : list B) : result A :=
  match l with
  | [] => Return a
  | b :: l' => a' ← f a b; foldM f a' l'
  end.

(** [a / b] where one operand is a float. *)
Definition py_div (a b : Q) : result Q :=
  if Qeq_bool b 0 then Raise ZeroDivisionError else Return (a / b)%Q.

(** [l[i]] for a non-negative index. *)
Definition py_index {A} (l : list A) (i : nat) : result A :=
  match l !! i with
  | Some a => Return a
  | None => Raise IndexError
  end.

(** ** The Curve collaborator ([Code.DayTime.Curve]) *)

Definition Color : Type := Z * Z * Z.

(** Modelled from the spec: the class [Curve] of [Code/DayTime/Curve.py] is
    imported by the widget but is not part of the sources.  A curve owns an
    ordered sequence of control points [(x, y)] and a colour. *)
Record Curve : Type := mkCurve {
  _cv_points : list (Q * Q);
  _color : Color
}.

(** Modelled from the spec: [Curve.get_cv_points] is a view of the control
    points in storage order. *)
Definition get_cv_points (c : Curve) : list (Q * Q) := _cv_points c.

(** Modelled from the spec: [Curve.get_color] is a fixed accessor. *)
Definition get_color (c : Curve) : Color := _color c.

(** Modelled from the spec: [Curve.append_cv] adds a new control point at the
    end of the sequence and returns its index. *)
Definition append_cv (c : Curve) (x y : Q) : Curve * nat :=
  (mkCurve (_cv_points c ++ [(x, y)]) (_color c), length (_cv_points c)).

(** Modelled from the spec: [Curve.set_cv_value] overwrites the coordinates of
    a control point and fails with an invalid control point index condition
    when the index is out of bounds. *)
Definition set_cv_value (c : Curve) (index : nat) (x y : Q) : result Curve :=
  if decide (index < length (_cv_points c))%nat
  then Return (mkCurve (<[index := (x, y)]> (_cv_points c)) (_color c))
  else Raise InvalidControlPointIndex.

(** Modelled from the spec: [Curve.remove_cv] removes a control point, the
    others keep their relative order; it fails when the index is out of
    bounds. *)
Definition remove_cv (c : Curve) (index : nat) : result Curve :=
  if decide (index < length (_cv_points c))%nat
  then Return (mkCurve (delete index (_cv_points c)) (_color c))
  else Raise InvalidControlPointIndex.

(** Modelled from the spec: [Curve.build_curve] recomputes the interpolation
    cache from the current points.  Sampling is a function of the points
    here, so there is no cache that could be stale. *)
Definition build_curve (c : Curve) : Curve := c.

(** ** The widget *)

Definition ref : Type := nat.

Definition store_curve (r : ref) (c : Curve) (h : ref -> Curve) : ref -> Curve :=
  fun r' => if decide (r' = r) then c else h r'.

Record CurveWidget : Type := mkWidget {
  heap : ref -> Curve;
  width : Z;
  height : Z;
  _curves : list ref;
  _current_time : Q;
  _drag_point : option (nat * nat * (Q * Q));
  _selected_point : option (nat * nat);
  _unit_processor : Q -> string;
  changes : list (list (list (Q * Q)));
  updates : nat
}.

Definition set_heap (h : ref -> Curve) (w : CurveWidget) : CurveWidget :=
  mkWidget h (width w) (height w) (_curves w) (_current_time w)
    (_drag_point w) (_selected_point w) (_unit_processor w) (changes w) (updates w).

Definition set__curves (l : list ref) (w : CurveWidget) : CurveWidget :=
  mkWidget (heap w) (width w) (height w) l (_current_time w)
    (_drag_point w) (_selected_point w) (_unit_processor w) (changes w) (updates w).

Definition set__current_time (t : Q) (w : CurveWidget) : CurveWidget :=
  mkWidget (heap w) (width w) (height w) (_curves w) t
    (_drag_point w) (_selected_point w) (_unit_processor w) (changes w) (updates w).

Definition set__drag_point (d : option (nat * nat * (Q * Q))) (w : CurveWidget) : CurveWidget :=
  mkWidget (heap w) (width w) (height w) (_curves w) (_current_time w)
    d (_selected_point w) (_unit_processor w) (changes w) (updates w).

Definition set__selected_point (s : option (nat * nat)) (w : CurveWidget) : CurveWidget :=
  mkWidget (heap w) (width w) (height w) (_curves w) (_current_time w)
    (_drag_point w) s (_unit_processor w) (changes w) (updates w).

Definition set__unit_processor (proc : Q -> string) (w : CurveWidget) : CurveWidget :=
  mkWidget (heap w) (width w) (height w) (_curves w) (_current_time w)
    (_drag_point w) (_selected_point w) proc (changes w) (updates w).

(** What the change handler can observe of the edited data. *)
Definition displayed_points (w : CurveWidget) : list (list (Q * Q)) :=
  (fun r => get_cv_points (heap w r)) <$> _curves w.

(** [self._change_handler()] *)
Definition _change_handler (w : CurveWidget) : CurveWidget :=
  mkWidget (heap w) (width w) (height w) (_curves w) (_current_time w)
    (_drag_point w) (_selected_point w) (_unit_processor w)
    (changes w ++ [displayed_points w]) (updates w).

(** [self.update()] *)
Definition update (w : CurveWidget) : CurveWidget :=
  mkWidget (heap w) (width w) (height w) (_curves w) (_current_time w)
    (_drag_point w) (_selected_point w) (_unit_processor w) (changes w) (S (updates w)).

(** Widget render constants of [__init__]. *)
Definition _cv_point_size : Z := 3.
Definition _legend_border : Z := 52.
Definition _bar_h : Z := 30.

Definition set_unit_processor (proc : Q -> string) (w : CurveWidget) : CurveWidget :=
  set__unit_processor proc w.

Definition _get_y_value_for (w : CurveWidget) (local_value : Q) : Q :=
  let local_value := Qmax 0 (Qmin 1 (1 - local_value)) in
  let local_value := (local_value * inject_Z (height w - _legend_border - _bar_h))%Q in
  (local_value + inject_Z _bar_h)%Q.

Definition _get_x_value_for (w : CurveWidget) (local_value : Q) : Q :=
  let local_value := Qmax 0 (Qmin 1 local_value) in
  (local_value * inject_Z (width w - _legend_border))%Q.

Definition set_curves (curves : list ref) (w : CurveWidget) : CurveWidget :=
  update (set__curves curves (set__drag_point None (set__selected_point None w))).

Definition set_current_time (local_time : Q) (w : CurveWidget) : CurveWidget :=
  update (set__current_time (Qmax 0 (Qmin 1 local_time)) w).

(** The test of one control point in the press handler: the body of the
    inner loop of [mousePressEvent]. *)
Definition press_cv_point (mouse_x mouse_y : Z) (index : nat)
    (w : CurveWidget) (cv : nat * (Q * Q)) : CurveWidget :=
  let '(cv_index, (x, y)) := cv in
  let point_x := _get_x_value_for w x in
  let point_y := (_get_y_value_for w y - inject_Z _bar_h)%Q in
  if Qltb (Qabs (point_x - inject_Z mouse_x)) (inject_Z (_cv_point_size + 6)) then
    if Qltb (Qabs (point_y - inject_Z mouse_y)) (inject_Z (_cv_point_size + 6)) then
      let drag_x_offset := (point_x - inject_Z mouse_x)%Q in
      let drag_y_offset := (point_y - inject_Z mouse_y)%Q in
      let w := set__drag_point (Some (index, cv_index, (drag_x_offset, drag_y_offset))) w in
      set__selected_point (Some (index, cv_index)) w
    else w
  else w.

(** ** The painter *)

Inductive PaintCmd : Type :=
| SetPen (c : Color)
| SetDashPen (c : Color)
| SetBrush (c : Color)
| DrawLine (x1 y1 x2 y2 : Q)
| DrawRect (x y w h : Q)
| DrawText (x y : Q) (text : string).

Definition paint (cmd : PaintCmd) (painter : list PaintCmd) : list PaintCmd :=
  painter ++ [cmd].

(** [str(n)] of an integer. *)
Definition py_str (n : Z) : string := pretty n.

(** [s.zfill(width)]: zeros are inserted after a leading sign. *)
Definition py_zfill (width : nat) (s : string) : string :=
  let zeros := String.concat "" (replicate (width - String.length s) "0"%string) in
  match s with
  | String "-"%char rest => String "-"%char (zeros +:+ rest)
  | String "+"%char rest => String "+"%char (zeros +:+ rest)
  | _ => zeros +:+ s
  end.

Section Sampling.

(** [Curve.get_value]: the interpolated value of a curve at an offset.  The
    interpolation itself belongs to the missing Curve class; the widget is
    verified for every such function. *)
Variable get_value : Curve -> Q -> Q.

(** The body of the outer loop of [mousePressEvent], for one curve. *)
Definition press_curve (mouse_x mouse_y : Z) (w : CurveWidget) (ic : nat * ref)
    : result CurveWidget :=
  let '(index, curve) := ic in
  (* Check for clicks on control points *)
  let w := foldl (press_cv_point mouse_x mouse_y index) w
             (enumerate (get_cv_points (heap w curve))) in
  (* If still no intersection, check if we clicked a curve *)
  if (0 <? mouse_x) && (mouse_x <? width w - _legend_border) then
    if (0 <? mouse_y) && (mouse_y <? height w - _legend_border) then
      mpos_relx ← py_div (inject_Z mouse_x) (inject_Z (width w - _legend_border));
      let curve_py := get_value (heap w curve) mpos_relx in
      let curve_offy := (_get_y_value_for w curve_py - inject_Z _bar_h)%Q in
      if Qltb (Qabs (curve_offy - inject_Z mouse_y)) 8 && is_None (_selected_point w) then
        (* Clicked on curve, spawn new point *)
        let '(curve', cv_index) := append_cv (heap w curve) mpos_relx curve_py in
        let w := set_heap (store_curve curve curve' (heap w)) w in
        let w := set__selected_point (Some (index, cv_index)) w in
        let w := set__drag_point (Some (index, cv_index, (0, 0)%Q)) w in
        Return (_change_handler w)
      else Return w
    else Return w
  else Return w.

Definition press_loop (mouse_x mouse_y : Z) (w : CurveWidget) (ics : list (nat * ref))
    : result CurveWidget :=
  foldM (press_curve mouse_x mouse_y) w ics.

(** [mousePressEvent], with the event's pointer position [(pos_x, pos_y)]. *)
Definition mousePressEvent (pos_x pos_y : Z) (w : CurveWidget) : result CurveWidget :=
  let w := set__drag_point None w in
  let w := set__selected_point None w in
  let mouse_x := pos_x - _legend_border in
  let mouse_y := pos_y - _bar_h in
  w ← press_loop mouse_x mouse_y w (enumerate (_curves w));
  Return (update w).

Definition mouseReleaseEvent (w : CurveWidget) : CurveWidget :=
  set__drag_point None w.

(** [mouseMoveEvent], with the event's pointer position [(pos_x, pos_y)]. *)
Definition mouseMoveEvent (pos_x pos_y : Z) (w : CurveWidget) : result CurveWidget :=
  if decide (length (_curves w) < 1)%nat then Return w
  else
    match _drag_point w with
    | Some (curve_index, point_index, (offset_x, offset_y)) =>
        let mouse_x := (inject_Z pos_x - offset_x - inject_Z _legend_border)%Q in
        let mouse_y := (inject_Z pos_y - offset_y - inject_Z _bar_h)%Q in
        (* Convert to local coordinate *)
        qx ← py_div mouse_x (inject_Z (width w - _legend_border));
        let local_x := Qmax 0 (Qmin 1 qx) in
        qy ← py_div mouse_y (inject_Z (height w - _legend_border - _bar_h));
        let local_y := (1 - Qmax 0 (Qmin 1 qy))%Q in
        (* Set new point data *)
        curve ← py_index (_curves w) curve_index;
        curve' ← set_cv_value (heap w curve) point_index local_x local_y;
        let w := set_heap (store_curve curve curve' (heap w)) w in
        (* Redraw curve *)
        curve ← py_index (_curves w) curve_index;
        let w := set_heap (store_curve curve (build_curve (heap w curve)) (heap w)) w in
        let w := update w in
        Return (_change_handler w)
    | None => Return w
    end.

Definition delete_current_point (w : CurveWidget) : result CurveWidget :=
  match _selected_point w with
  | Some (curve_index, point_index) =>
      curve ← py_index (_curves w) curve_index;
      curve' ← remove_cv (heap w curve) point_index;
      let w := set_heap (store_curve curve curve' (heap w)) w in
      let w := set__selected_point None w in
      let w := set__drag_point None w in
      let w := update w in
      Return (_change_handler w)
  | None => Return w
  end.

(** [keyPressEvent]: only the delete key is handled. *)
Definition keyPressEvent (is_delete : bool) (w : CurveWidget) : result CurveWidget :=
  if is_delete then delete_current_point w else Return w.

(** ** Drawing *)

Definition draw_vertical_line (line_spacing_x : Q) (canvas_height : Z)
    (painter : list PaintCmd) (i : Z) : result (list PaintCmd) :=
  let line_pos := (inject_Z i * line_spacing_x + inject_Z _legend_border - 1)%Q in
  Return (paint (DrawLine line_pos (inject_Z _bar_h) line_pos
                          (inject_Z (canvas_height + _bar_h))) painter).

Definition draw_horizontal_line (w : CurveWidget) (line_spacing_y : Q) (canvas_height : Z)
    (painter : list PaintCmd) (i : Z) : result (list PaintCmd) :=
  let line_pos := (inject_Z canvas_height - inject_Z i * line_spacing_y + inject_Z _bar_h)%Q in
  Return (paint (DrawLine (inject_Z _legend_border) line_pos (inject_Z (width w)) line_pos)
                painter).

Definition draw_vertical_label (w : CurveWidget) (line_spacing_y : Q)
    (canvas_height num_horiz_lines : Z)
    (painter : list PaintCmd) (i : Z) : result (list PaintCmd) :=
  let line_pos := (inject_Z canvas_height - inject_Z i * line_spacing_y + inject_Z _bar_h)%Q in
  v ← py_div (inject_Z i) (inject_Z (num_horiz_lines - 1));
  Return (paint (DrawText 6 (line_pos + 3) (_unit_processor w v)) painter).

Definition draw_horizontal_label (line_spacing_x : Q) (canvas_height num_vert_lines : Z)
    (painter : list PaintCmd) (i : Z) : result (list PaintCmd) :=
  let line_pos := (inject_Z i * line_spacing_x + inject_Z _legend_border)%Q in
  let offpos_x :=
    if i =? 0 then -2 else if i =? num_vert_lines then -27 else -14 in
  let time_string :=
    (py_zfill 2 (py_str (py_int (inject_Z i / inject_Z num_vert_lines * 24))) +:+ ":00")%string in
  Return (paint (DrawText (line_pos + inject_Z offpos_x)
                          (inject_Z (canvas_height + _bar_h + 18)) time_string) painter).

(** One column of the polyline of a curve; the state carries [last_value]. *)
Definition draw_curve_column (w : CurveWidget) (curve : ref) (canvas_width : Z)
    (st : Q * list PaintCmd) (i : Z) : result (Q * list PaintCmd) :=
  let '(last_value, painter) := st in
  rel_offset ← py_div (inject_Z i) (inject_Z canvas_width - 1);
  let curve_height := _get_y_value_for w (get_value (heap w curve) rel_offset) in
  let last_value := if i =? 0 then curve_height else last_value in
  let painter :=
    paint (DrawLine (inject_Z (_legend_border + i - 1)) last_value
                    (inject_Z (_legend_border + i)) curve_height) painter in
  let last_value := curve_height in
  Return (last_value, painter).

(** The marker of one control point. *)
Definition draw_cv_point (w : CurveWidget) (index : nat) (canvas_width canvas_height : Z)
    (painter : list PaintCmd) (cv : nat * (Q * Q)) : result (list PaintCmd) :=
  let '(cv_index, (x, y)) := cv in
  let offs_x := (x * inject_Z canvas_width + inject_Z _legend_border)%Q in
  let offs_y := ((1 - y) * inject_Z canvas_height + inject_Z _bar_h)%Q in
  let selected :=
    match _selected_point w with
    | Some (s0, s1) => bool_decide (s0 = index) && bool_decide (s1 = cv_index)
    | None => false
    end in
  let painter :=
    if selected then paint (SetPen (255, 0, 0)) painter
    else paint (SetPen (100, 100, 100)) painter in
  Return (paint (DrawRect (offs_x - inject_Z _cv_point_size) (offs_y - inject_Z _cv_point_size)
                          (inject_Z (2 * _cv_point_size)) (inject_Z (2 * _cv_point_size)))
                painter).

Definition draw_curve (w : CurveWidget) (canvas_width canvas_height : Z)
    (painter : list PaintCmd) (ic : nat * ref) : result (list PaintCmd) :=
  let '(index, curve) := ic in
  let painter := paint (SetPen (get_color (heap w curve))) painter in
  let last_value := 0%Q in
  '(_, painter) ← foldM (draw_curve_column w curve canvas_width) (last_value, painter)
                        (py_range canvas_width);
  (* Draw the CV points of the curve *)
  let painter := paint (SetBrush (240, 240, 240)) painter in
  foldM (draw_cv_point w index canvas_width canvas_height) painter
        (enumerate (get_cv_points (heap w curve))).

(** One channel of the preview bar: [max(0, min(255, int(v * 255.0)))]. *)
Definition bar_channel (v : Q) : Z := Z.max 0 (Z.min 255 (py_int (v * 255))).

(** [bar_curve] is a single curve or the slice of the first three. *)
Inductive BarCurve : Type :=
| OneCurve (curve : ref)
| CurveSlice (curves : list ref).

(** One column of the preview bar. *)
Definition draw_bar_column (w : CurveWidget) (bar_curve : BarCurve) (canvas_width : Z)
    (painter : list PaintCmd) (i : Z) : result (list PaintCmd) :=
  let bar_half_height := 4 in
  let bar_top_pos := 10 in
  let xpos := _legend_border + i in
  relv ← py_div (inject_Z i) (inject_Z canvas_width);
  painter ←
    match bar_curve with
    | OneCurve curve =>
        let val := bar_channel (get_value (heap w curve) relv) in
        Return (paint (SetPen (val, val, val)) painter)
    | CurveSlice curves =>
        c0 ← py_index curves 0;
        let r := bar_channel (get_value (heap w c0) relv) in
        c1 ← py_index curves 1;
        let g := bar_channel (get_value (heap w c1) relv) in
        c2 ← py_index curves 2;
        let b := bar_channel (get_value (heap w c2) relv) in
        Return (paint (SetPen (r, g, b)) painter)
    end;
  Return (paint (DrawLine (inject_Z xpos) (inject_Z bar_top_pos) (inject_Z xpos)
                          (inject_Z (bar_top_pos + 2 * bar_half_height))) painter).

Definition usage_hint : string :=
  "Click on the curve to add new control points, click and drag existing points to move them.".

(** The end of [_draw], from the comment [# Draw bar] on: the preview bar,
    the marker of the current time and the usage hint.  Without curves the
    method returns before any of them. *)
Definition draw_preview_bar (w : CurveWidget) (canvas_width canvas_height : Z)
    (painter : list PaintCmd) : result (list PaintCmd) :=
  if decide (length (_curves w) = 0)%nat then Return painter
  else
    bar_curve ←
      (if decide (length (_curves w) = 1)%nat
       then curve ← py_index (_curves w) 0; Return (OneCurve curve)
       else Return (CurveSlice (take 3 (_curves w))));
    painter ← foldM (draw_bar_column w bar_curve canvas_width) painter
                    (py_range (canvas_width - 1));
    (* Display current time *)
    let painter := paint (SetDashPen (255, 100, 100)) painter in
    let xoffs := (inject_Z _legend_border + _current_time w * inject_Z canvas_width)%Q in
    let painter :=
      paint (DrawLine xoffs (inject_Z _bar_h) xoffs (inject_Z (_bar_h + canvas_height)))
            painter in
    (* Draw usage hints *)
    let painter := paint (SetPen (100, 100, 100)) painter in
    Return (paint (DrawText (inject_Z (_legend_border - 2)) (inject_Z (height w - 2))
                            usage_hint) painter).

(** [_draw]: the painter is the list of the commands issued so far. *)
Definition _draw (w : CurveWidget) (painter : list PaintCmd) : result (list PaintCmd) :=
  let canvas_width := width w - _legend_border in
  let canvas_height := height w - _legend_border - _bar_h in
  (* Compute amount of horizontal / vertical lines *)
  let num_vert_lines := 6 in
  let line_spacing_x := (inject_Z (width w - _legend_border) / 6)%Q in
  let line_spacing_y := (inject_Z (height w - _legend_border - _bar_h) / 20)%Q in
  q ← py_div (inject_Z canvas_height) line_spacing_y;
  let num_horiz_lines := Qceiling q + 1 in
  (* Draw vertical lines *)
  let painter := paint (SetPen (200, 200, 200)) painter in
  painter ← foldM (draw_vertical_line line_spacing_x canvas_height) painter
                  (py_range (num_vert_lines + 1));
  (* Draw horizontal lines *)
  let painter := paint (SetPen (200, 200, 200)) painter in
  painter ← foldM (draw_horizontal_line w line_spacing_y canvas_height) painter
                  (py_range num_horiz_lines);
  (* Draw vertical legend labels *)
  let painter := paint (SetPen (120, 120, 120)) painter in
  painter ← foldM (draw_vertical_label w line_spacing_y canvas_height num_horiz_lines) painter
                  (py_range num_horiz_lines);
  (* Draw horizontal legend labels *)
  painter ← foldM (draw_horizontal_label line_spacing_x canvas_height num_vert_lines) painter
                  (py_range (num_vert_lines + 1));
  (* Draw curve *)
  painter ← foldM (draw_curve w canvas_width canvas_height) painter (enumerate (_curves w));
  (* Draw bar background *)
  let bar_half_height := 4 in
  let bar_top_pos := 10 in
  let painter := paint (SetBrush (255, 0, 0)) painter in
  let painter := paint (SetPen (110, 110, 110)) painter in
  let painter :=
    paint (DrawRect (inject_Z (_legend_border - 1)) (inject_Z (bar_top_pos - 1))
                    (inject_Z (width w - _legend_border))
                    (inject_Z (2 * bar_half_height + 2))) painter in
  (* Draw bar *)
  draw_preview_bar w canvas_width canvas_height painter.

(** [paintEvent] draws the entire widget with a fresh painter. *)
Definition paintEvent (w : CurveWidget) : result (list PaintCmd) := _draw w [].

End Sampling.

(** ** File names of the exporter ([rpcore/util/mitsuba_exporter.py]) *)

(** [s.replace(old, new)] for a pattern [old] of one character: every
    occurrence is replaced, from left to right. *)
Fixpoint py_replace_char (old : ascii) (new : string) (s : string) : string :=
  match s with
  | EmptyString => EmptyString
  | String c rest =>
      if Ascii.eqb c old then new +:+ py_replace_char old new rest
      else String c (py_replace_char old new rest)
  end.

(** [to_safe_name]: converts a string to a valid filename. *)
Definition to_safe_name (name : string) : string :=
  py_replace_char ":" ""
    (py_replace_char " " "_"
       (py_replace_char "/" ""
          (py_replace_char "\" "" name))).

(** The characters [to_safe_name] takes out of a name. *)
Definition unsafe_char (c : ascii) : bool :=
  Ascii.eqb c "\" || Ascii.eqb c "/" || Ascii.eqb c " " || Ascii.eqb c ":".

(** One pass over a name: backslash, slash and colon are dropped, a space
    becomes an underscore. *)
Fixpoint safe_name_pass (name : string) : string :=
  match name with
  | EmptyString => EmptyString
  | String c rest =>
      if Ascii.eqb c " " then String "_" (safe_name_pass rest)
      else if unsafe_char c then safe_name_pass rest
      else String c (safe_name_pass rest)
  end.

(** ** A sampler for the examples *)

Definition clamp01 (v : Q) : Q := Qmax 0 (Qmin 1 v).

Fixpoint insert_by_x (p : Q * Q) (l : list (Q * Q)) : list (Q * Q) :=
  match l with
  | [] => [p]
  | q :: l' => if Qle_bool (fst p) (fst q) then p :: l else q :: insert_by_x p l'
  end.

Definition sort_by_x (l : list (Q * Q)) : list (Q * Q) := foldr insert_by_x [] l.

Fixpoint interpolate (prev : Q * Q) (rest : list (Q * Q)) (x : Q) : Q :=
  match rest with
  | [] => snd prev
  | next :: rest' =>
      if Qle_bool x (fst next) then
        if Qeq_bool (fst next) (fst prev) then snd next
        else (snd prev + (snd next - snd prev) * (x - fst prev) / (fst next - fst prev))%Q
      else interpolate next rest' x
  end.

(** Modelled from the spec: [Curve.get_value] is not part of the sources.
    The spec leaves the interpolation open; this is its linear choice: the
    offset and the value are clamped to [0,1], a curve without points samples
    to 0, a curve with one point to that point's y, and with more points the
    value is interpolated linearly between the points in ascending order of x
    (ties in storage order), constant outside of them. *)
Definition linear_get_value (c : Curve) (offset : Q) : Q :=
  let x := clamp01 offset in
  match sort_by_x (get_cv_points c) with
  | [] => 0%Q
  | first :: rest =>
      if Qle_bool x (fst first) then clamp01 (snd first)
      else clamp01 (interpolate first rest x)
  end.

(** A widget of the given size that displays [curves], without selection and
    drag target and with the current time of [__init__].  The unit processor
    is injected; this one labels nothing. *)
Definition new_widget (h : ref -> Curve) (width height : Z) (curves : list ref) : CurveWidget :=
  mkWidget h width height curves (1 # 2) None None (fun _ => ""%string) [] 0.

(** A widget that displays the given curves, each a Curve object of its own. *)
Definition widget_of (width height : Z) (curves : list Curve) : CurveWidget :=
  new_widget (fun r => nth r curves (mkCurve [] (0, 0, 0))) width height
    (seq 0 (length curves)).

Definition white : Color := (255, 255, 255).

(** One control point in the middle of the plot. *)
Definition mid_point_curve : Curve := mkCurve [(1 # 2, 1 # 2)%Q] white.

(** Two control points a few pixels apart. *)
Definition close_points_curve : Curve := mkCurve [(1 # 2, 1 # 2)%Q; (51 # 100, 1 # 2)%Q] white.

(** One control point at the left, at half height. *)
Definition left_point_curve : Curve := mkCurve [(1 # 10, 1 # 2)%Q] white.

(** Flat curves at full and at zero height. *)
Definition top_curve : Curve := mkCurve [(0, 1)%Q] white.
Definition bottom_curve : Curve := mkCurve [(0, 0)%Q] white.

(** ** Vocabulary of the statements *)

(** The plot area: the canvas without the legend and the bar. *)
Definition plot_width (w : CurveWidget) : Z := width w - _legend_border.
Definition plot_height (w : CurveWidget) : Z := height w - _legend_border - _bar_h.

(** The pixel position of a control point, relative to the plot area. *)
Definition point_px (w : CurveWidget) (p : Q * Q) : Q * Q :=
  (_get_x_value_for w (fst p), (_get_y_value_for w (snd p) - inject_Z _bar_h)%Q).

(** The pointer is inside the tolerance square of a control point: closer
    than point radius plus slack on both axes. *)
Definition cv_hit (w : CurveWidget) (mouse_x mouse_y : Z) (p : Q * Q) : bool :=
  Qltb (Qabs (fst (point_px w p) - inject_Z mouse_x)) (inject_Z (_cv_point_size + 6))
  && Qltb (Qabs (snd (point_px w p) - inject_Z mouse_y)) (inject_Z (_cv_point_size + 6)).

(** The pixel delta between a control point and the pointer. *)
Definition grab_offset (w : CurveWidget) (mouse_x mouse_y : Z) (p : Q * Q) : Q * Q :=
  ((fst (point_px w p) - inject_Z mouse_x)%Q, (snd (point_px w p) - inject_Z mouse_y)%Q).

(** The region in which a press can insert a point.  It contains the plot
    area: its lower edge lies [_bar_h] pixels below that of the plot. *)
Definition in_click_region (w : CurveWidget) (mouse_x mouse_y : Z) : Prop :=
  0 < mouse_x < width w - _legend_border /\ 0 < mouse_y < height w - _legend_border.

(** The state in which [mousePressEvent] enters its loop. *)
Definition press_start (w : CurveWidget) : CurveWidget :=
  set__selected_point None (set__drag_point None w).

(** The vertical pixel distance between the pointer and the body of a curve,
    sampled at the pointer's column, is below the tolerance of 8 pixels. *)
Definition near_curve_body (get_value : Curve -> Q -> Q) (w : CurveWidget)
    (curve : ref) (mouse_x mouse_y : Z) : bool :=
  let mpos_relx := (inject_Z mouse_x / inject_Z (width w - _legend_border))%Q in
  let curve_py := get_value (heap w curve) mpos_relx in
  Qltb (Qabs (_get_y_value_for w curve_py - inject_Z _bar_h - inject_Z mouse_y)) 8.

(** The control point a press on the body of a curve inserts: the pointer's
    normalized x and the sample of the curve there. *)
Definition spawned_point (get_value : Curve -> Q -> Q) (w : CurveWidget)
    (curve : ref) (mouse_x : Z) : Q * Q :=
  let mpos_relx := (inject_Z mouse_x / inject_Z (width w - _legend_border))%Q in
  (mpos_relx, get_value (heap w curve) mpos_relx).

(** The widget after such an insertion into the curve displayed at [index]. *)
Definition spawned (get_value : Curve -> Q -> Q) (w : CurveWidget)
    (index : nat) (curve : ref) (mouse_x : Z) : CurveWidget :=
  let c := heap w curve in
  let cv_index := length (get_cv_points c) in
  let c' := mkCurve (get_cv_points c ++ [spawned_point get_value w curve mouse_x]) (get_color c) in
  _change_handler
    (set__drag_point (Some (index, cv_index, (0, 0)%Q))
       (set__selected_point (Some (index, cv_index))
          (set_heap (store_curve curve c' (heap w)) w))).

(** The widget after a drag step has written [(x, y)] into control point
    [point_index] of [curve]. *)
Definition dragged (w : CurveWidget) (curve : ref) (point_index : nat) (x y : Q)
    : CurveWidget :=
  let c' := mkCurve (<[point_index := (x, y)]> (get_cv_points (heap w curve)))
                    (get_color (heap w curve)) in
  let w1 := set_heap (store_curve curve c' (heap w)) w in
  _change_handler
    (update (set_heap (store_curve curve (build_curve (heap w1 curve)) (heap w1)) w1)).

(** The normalized coordinates a drag step computes from the pointer
    position and the grab offset. *)
Definition drag_local_x (w : CurveWidget) (pos_x : Z) (offset_x : Q) : Q :=
  Qmax 0 (Qmin 1 ((inject_Z pos_x - offset_x - inject_Z _legend_border)
                  / inject_Z (width w - _legend_border))).

Definition drag_local_y (w : CurveWidget) (pos_y : Z) (offset_y : Q) : Q :=
  (1 - Qmax 0 (Qmin 1 ((inject_Z pos_y - offset_y - inject_Z _bar_h)
                       / inject_Z (height w - _legend_border - _bar_h))))%Q.

(** The widget after the deletion of control point [point_index] of [curve]. *)
Definition deleted (w : CurveWidget) (curve : ref) (point_index : nat) : CurveWidget :=
  let c' := mkCurve (delete point_index (get_cv_points (heap w curve)))
                    (get_color (heap w curve)) in
  _change_handler
    (update (set__drag_point None (set__selected_point None
       (set_heap (store_curve curve c' (heap w)) w)))).

(** The colour of the preview bar at column [i] when the first three
    displayed curves are [c0], [c1] and [c2]. *)
Definition bar_rgb (get_value : Curve -> Q -> Q) (w : CurveWidget)
    (c0 c1 c2 : ref) (i : Z) : Color :=
  let relv := (inject_Z i / inject_Z (plot_width w))%Q in
  (bar_channel (get_value (heap w c0) relv),
   bar_channel (get_value (heap w c1) relv),
   bar_channel (get_value (heap w c2) relv)).

(** The painter calls for column [i] of the preview bar. *)
Definition bar_column_cmds (colour : Color) (i : Z) : list PaintCmd :=
  [SetPen colour;
   DrawLine (inject_Z (_legend_border + i)) 10 (inject_Z (_legend_border + i)) 18].

(** Two widget states that differ at most in selection and drag target. *)
Definition same_data (w w' : CurveWidget) : Prop :=
  heap w' = heap w /\ width w' = width w /\ height w' = height w /\
  _curves w' = _curves w /\ changes w' = changes w /\ updates w' = updates w.

(** [(curve_index, point_index)] refers to a control point of a displayed
    curve. *)
Definition valid_point (w : CurveWidget) (curve_index point_index : nat) : Prop :=
  exists r, _curves w !! curve_index = Some r /\
            (point_index < length (get_cv_points (heap w r)))%nat.

(** The selection refers to a control point of a displayed curve, the drag
    target is the selected point, and its grab offset is inside the
    tolerance square. *)
Definition selection_consistent (w : CurveWidget) : Prop :=
  (forall ci pi, _selected_point w = Some (ci, pi) -> valid_point w ci pi) /\
  (forall ci pi offset, _drag_point w = Some (ci, pi, offset) ->
     _selected_point w = Some (ci, pi) /\
     (Qabs (fst offset) < 9)%Q /\ (Qabs (snd offset) < 9)%Q).

(** No control point of the curve contains the pointer. *)
Definition curve_misses (w : CurveWidget) (mouse_x mouse_y : Z) (r : ref) : Prop :=
  forall p, p ∈ get_cv_points (heap w r) -> cv_hit w mouse_x mouse_y p = false.

(** The painter after the marker of the control point (1/2, 1/2) on a canvas
    of 400 by 300 pixels: the square from pixel (223, 136) on, around the
    centre (226, 139). *)
Definition painter_after_marker : list PaintCmd :=
  [SetPen (100, 100, 100); DrawRect (446 # 2) (272 # 2) 6 6].

(** The pixel row of a curve at column [i] of the plot, as [_draw] samples
    it. *)
Definition curve_height (get_value : Curve -> Q -> Q) (w : CurveWidget)
    (curve : ref) (i : Z) : Q :=
  _get_y_value_for w
    (get_value (heap w curve) (inject_Z i / (inject_Z (plot_width w) - 1))%Q).

(** The segment of the polyline of a curve that ends at column [i]: it
    starts one pixel to the left, at the height of the column before (the
    first segment is level). *)
Definition polyline_segment (get_value : Curve -> Q -> Q) (w : CurveWidget)
    (curve : ref) (i : Z) : PaintCmd :=
  DrawLine (inject_Z (_legend_border + i - 1))
           (curve_height get_value w curve (if i =? 0 then 0 else i - 1))
           (inject_Z (_legend_border + i))
           (curve_height get_value w curve i).

(** ** Numbers *)

Lemma Qltb_lt x y : Qltb x y = true <-> (x < y)%Q.
Proof.
  unfold Qltb. rewrite Qlt_alt. destruct (x ?= y)%Q; split; congruence.
Qed.

Lemma Qltb_ge x y : Qltb x y = false <-> (y <= x)%Q.
Proof.
  rewrite <- not_true_iff_false, Qltb_lt. split.
  - apply Qnot_lt_le.
  - apply Qle_not_lt.
Qed.

Lemma inject_Z_eq0 z : (inject_Z z == 0)%Q <-> z = 0.
Proof. unfold Qeq, inject_Z. simpl. lia. Qed.

Lemma py_div_ok a b : ~ (b == 0)%Q -> py_div a b = Return (a / b)%Q.
Proof.
  intros Hb. unfold py_div. destruct (Qeq_bool b 0) eqn:E; [|done].
  apply Qeq_bool_iff in E. contradiction.
Qed.

Lemma py_div_zero a b : (b == 0)%Q -> py_div a b = Raise ZeroDivisionError.
Proof.
  intros Hb. unfold py_div. apply Qeq_bool_iff in Hb. by rewrite Hb.
Qed.

Lemma clamp_bounds v : (0 <= Qmax 0 (Qmin 1 v) <= 1)%Q.
Proof.
  split.
  - apply Q.le_max_l.
  - apply Q.max_lub; [discriminate | apply Q.le_min_l].
Qed.

Lemma clamp_high v : (1 <= v)%Q -> (Qmax 0 (Qmin 1 v) == 1)%Q.
Proof.
  intros Hv. rewrite (Q.min_l 1 v) by done. apply Q.max_r. discriminate.
Qed.

Lemma clamp_low v : (v <= 0)%Q -> (Qmax 0 (Qmin 1 v) == 0)%Q.
Proof.
  intros Hv. apply Q.max_l. apply Qle_trans with v; [apply Q.le_min_r | done].
Qed.

Lemma clamp_id v : (0 <= v <= 1)%Q -> (Qmax 0 (Qmin 1 v) == v)%Q.
Proof.
  intros [H0 H1]. rewrite (Q.min_r 1 v) by done. by apply Q.max_r.
Qed.

(** ** The press handler: the test of the control points *)

Lemma same_data_refl w : same_data w w.
Proof. by repeat split. Qed.

Lemma same_data_trans w1 w2 w3 : same_data w1 w2 -> same_data w2 w3 -> same_data w1 w3.
Proof.
  unfold same_data. intros (?&?&?&?&?&?) (?&?&?&?&?&?).
  repeat split; congruence.
Qed.

(** The tolerance square has a half side of 3+6 = 9 pixels. *)
Lemma cv_hit_square w mouse_x mouse_y p :
  cv_hit w mouse_x mouse_y p = true <->
  (Qabs (fst (point_px w p) - inject_Z mouse_x) < 9)%Q /\
  (Qabs (snd (point_px w p) - inject_Z mouse_y) < 9)%Q.
Proof.
  unfold cv_hit. by rewrite andb_true_iff, !Qltb_lt.
Qed.

Lemma plot_in_click_region w mouse_x mouse_y :
  0 < mouse_x < plot_width w -> 0 < mouse_y < plot_height w ->
  in_click_region w mouse_x mouse_y.
Proof.
  unfold plot_width, plot_height, in_click_region, _bar_h. lia.
Qed.

Lemma cv_hit_frame w w' mouse_x mouse_y p :
  width w' = width w -> height w' = height w ->
  cv_hit w' mouse_x mouse_y p = cv_hit w mouse_x mouse_y p.
Proof.
  intros Hw Hh.
  unfold cv_hit, point_px, _get_x_value_for, _get_y_value_for.
  by rewrite Hw, Hh.
Qed.

Lemma grab_offset_frame w w' mouse_x mouse_y p :
  width w' = width w -> height w' = height w ->
  grab_offset w' mouse_x mouse_y p = grab_offset w mouse_x mouse_y p.
Proof.
  intros Hw Hh.
  unfold grab_offset, point_px, _get_x_value_for, _get_y_value_for.
  by rewrite Hw, Hh.
Qed.

Lemma press_cv_point_unfold mouse_x mouse_y index w j p :
  press_cv_point mouse_x mouse_y index w (j, p) =
  if cv_hit w mouse_x mouse_y p
  then set__selected_point (Some (index, j))
         (set__drag_point (Some (index, j, grab_offset w mouse_x mouse_y p)) w)
  else w.
Proof.
  destruct p as [x y].
  unfold press_cv_point, cv_hit, grab_offset, point_px. simpl.
  destruct (Qltb _ _); [|done]. simpl. by destruct (Qltb _ _).
Qed.

Lemma foldl_cons {A B} (f : A -> B -> A) (a : A) (b : B) (l : list B) :
  foldl f a (b :: l) = foldl f (f a b) l.
Proof. done. Qed.

Lemma press_cv_point_data mouse_x mouse_y index w cv :
  same_data w (press_cv_point mouse_x mouse_y index w cv).
Proof.
  destruct cv as [j p]. rewrite press_cv_point_unfold.
  destruct (cv_hit _ _ _ _); by repeat split.
Qed.

Lemma press_cv_points_data mouse_x mouse_y index cvs w :
  same_data w (foldl (press_cv_point mouse_x mouse_y index) w cvs).
Proof.
  revert w. induction cvs as [|cv cvs IH]; intros w.
  - apply same_data_refl.
  - rewrite foldl_cons.
    eapply same_data_trans; [apply press_cv_point_data | apply IH].
Qed.

(** A selection, once made, is never cleared by the test of further points. *)
Lemma press_cv_points_keep mouse_x mouse_y index cvs w :
  _selected_point w <> None ->
  _selected_point (foldl (press_cv_point mouse_x mouse_y index) w cvs) <> None.
Proof.
  revert w. induction cvs as [|[j p] cvs IH]; intros w Hsel; [done|].
  rewrite foldl_cons. apply IH. rewrite press_cv_point_unfold.
  by destruct (cv_hit _ _ _ _).
Qed.

(** When no tested point contains the pointer, nothing changes. *)
Lemma press_cv_points_miss mouse_x mouse_y index cvs w :
  Forall (fun cv => cv_hit w mouse_x mouse_y (snd cv) = false) cvs ->
  foldl (press_cv_point mouse_x mouse_y index) w cvs = w.
Proof.
  induction 1 as [|[j p] cvs Hp _ IH]; [done|].
  rewrite foldl_cons, press_cv_point_unfold. simpl in Hp. by rewrite Hp.
Qed.

(** When there is no selection afterwards, no tested point contained the
    pointer and nothing changed. *)
Lemma press_cv_points_none mouse_x mouse_y index cvs w :
  _selected_point (foldl (press_cv_point mouse_x mouse_y index) w cvs) = None ->
  foldl (press_cv_point mouse_x mouse_y index) w cvs = w.
Proof.
  revert w. induction cvs as [|[j p] cvs IH]; intros w Hsel; [done|].
  rewrite foldl_cons, press_cv_point_unfold in *.
  destruct (cv_hit w mouse_x mouse_y p) eqn:Hp; [|by apply IH].
  exfalso. revert Hsel. by apply press_cv_points_keep.
Qed.

(** The last tested point that contains the pointer is selected and grabbed. *)
Lemma press_cv_points_last mouse_x mouse_y index cvs1 j p cvs2 w :
  cv_hit w mouse_x mouse_y p = true ->
  Forall (fun cv => cv_hit w mouse_x mouse_y (snd cv) = false) cvs2 ->
  let w' := foldl (press_cv_point mouse_x mouse_y index) w (cvs1 ++ (j, p) :: cvs2) in
  _selected_point w' = Some (index, j) /\
  _drag_point w' = Some (index, j, grab_offset w mouse_x mouse_y p).
Proof.
  intros Hp Hmiss. cbv zeta. rewrite foldl_app, foldl_cons.
  set (w1 := foldl _ w cvs1).
  assert (Hd : same_data w w1) by apply press_cv_points_data.
  destruct Hd as (_ & Hw & Hh & _).
  rewrite press_cv_point_unfold.
  rewrite (cv_hit_frame w w1), Hp by done.
  rewrite press_cv_points_miss.
  - simpl. by rewrite (grab_offset_frame w w1).
  - eapply Forall_impl; [exact Hmiss|]. intros cv Hcv. simpl.
    rewrite <- Hcv. by apply cv_hit_frame.
Qed.

Lemma enumerate_app {A} (l1 l2 : list A) :
  enumerate (l1 ++ l2) = enumerate l1 ++ imap (fun i => pair (length l1 + i)%nat) l2.
Proof. unfold enumerate. by rewrite imap_app. Qed.

Lemma Forall_imap_snd {A} (P : A -> Prop) (f : nat -> nat) (l : list A) :
  Forall P l -> Forall (fun ia : nat * A => P (snd ia)) (imap (fun i => pair (f i)) l).
Proof.
  revert f. induction l as [|a l IH]; intros f Hl; simpl; [constructor|].
  inversion Hl; subst. constructor; [done|]. by apply (IH (f ∘ S)).
Qed.

(** ** The press handler: one curve *)

Section Press.

Variable get_value : Curve -> Q -> Q.

Lemma in_click_region_test w mouse_x mouse_y :
  in_click_region w mouse_x mouse_y <->
  (0 <? mouse_x) && (mouse_x <? width w - _legend_border) = true /\
  (0 <? mouse_y) && (mouse_y <? height w - _legend_border) = true.
Proof.
  unfold in_click_region. rewrite !andb_true_iff, !Z.ltb_lt. tauto.
Qed.

(** The iteration of the press loop for one curve either only tests the
    control points, or it also inserts a point; it inserts exactly when no
    point is selected yet, the pointer is in the click region, and the body
    of the curve is near. *)
Lemma press_curve_cases mouse_x mouse_y w index curve :
  let w1 := foldl (press_cv_point mouse_x mouse_y index) w
              (enumerate (get_cv_points (heap w curve))) in
  (press_curve get_value mouse_x mouse_y w (index, curve) = Return w1 /\
   (~ in_click_region w mouse_x mouse_y \/ _selected_point w1 <> None \/
    near_curve_body get_value w curve mouse_x mouse_y = false)) \/
  (press_curve get_value mouse_x mouse_y w (index, curve)
     = Return (spawned get_value w index curve mouse_x) /\
   w1 = w /\ _selected_point w = None /\ in_click_region w mouse_x mouse_y /\
   near_curve_body get_value w curve mouse_x mouse_y = true).
Proof.
  intros w1.
  assert (Hd : same_data w w1) by apply press_cv_points_data.
  destruct Hd as (Hheap & Hw & Hh & _).
  unfold press_curve. fold w1.
  rewrite (in_click_region_test w), <- Hw, <- Hh.
  destruct ((0 <? mouse_x) && (mouse_x <? width w1 - _legend_border)) eqn:Hx;
    [|left; split; [done | left; intros [? _]; done]].
  destruct ((0 <? mouse_y) && (mouse_y <? height w1 - _legend_border)) eqn:Hy;
    [|left; split; [done | left; intros [_ ?]; done]].
  apply andb_true_iff in Hx as Hx'. destruct Hx' as [Hx1 Hx2].
  apply Z.ltb_lt in Hx1, Hx2.
  rewrite py_div_ok by (rewrite inject_Z_eq0; lia).
  cbn [mbind result_bind].
  destruct (_selected_point w1) eqn:Hsel.
  { rewrite andb_false_r. left. split; [done|]. right. left. done. }
  rewrite andb_true_r.
  assert (Hw1 : w1 = w) by (by apply press_cv_points_none).
  destruct (Qltb _ 8) eqn:Hnear.
  - right. unfold near_curve_body, spawned, spawned_point.
    rewrite Hw1 in *. repeat split; try done.
  - left. split; [done|]. right. right.
    unfold near_curve_body. by rewrite Hw1 in Hnear.
Qed.

Lemma spawned_fields w index curve mouse_x :
  let w' := spawned get_value w index curve mouse_x in
  width w' = width w /\ height w' = height w /\ _curves w' = _curves w /\
  updates w' = updates w /\
  heap w' = store_curve curve
              (mkCurve (get_cv_points (heap w curve)
                          ++ [spawned_point get_value w curve mouse_x])
                       (get_color (heap w curve))) (heap w) /\
  _selected_point w' = Some (index, length (get_cv_points (heap w curve))) /\
  _drag_point w' = Some (index, length (get_cv_points (heap w curve)), (0, 0)%Q) /\
  changes w' = changes w ++ [displayed_points w'].
Proof. by repeat split. Qed.

Lemma press_curve_total mouse_x mouse_y w ic :
  exists w', press_curve get_value mouse_x mouse_y w ic = Return w' /\
    width w' = width w /\ height w' = height w /\ _curves w' = _curves w /\
    updates w' = updates w.
Proof.
  destruct ic as [index curve].
  destruct (press_curve_cases mouse_x mouse_y w index curve) as [[-> _]|[-> _]].
  - eexists. split; [done|].
    pose proof (press_cv_points_data mouse_x mouse_y index
                  (enumerate (get_cv_points (heap w curve))) w) as (?&?&?&?&?&?).
    done.
  - eexists. split; [done|]. by repeat split.
Qed.

(** ** The press handler: the loop over the curves *)

Lemma foldM_cons {A B} (f : A -> B -> result A) (a : A) (b : B) (l : list B) :
  foldM f a (b :: l) = (a' ← f a b; foldM f a' l).
Proof. done. Qed.

Lemma foldM_app {A B} (f : A -> B -> result A) (a : A) (l1 l2 : list B) :
  foldM f a (l1 ++ l2) = (a' ← foldM f a l1; foldM f a' l2).
Proof.
  revert a. induction l1 as [|b l1 IH]; intros a; [done|].
  rewrite <- app_comm_cons, !foldM_cons.
  destruct (f a b) as [a'|e]; [|done]. apply IH.
Qed.

Lemma bind_Return {A B} (f : A -> result B) (a : A) : (Return a ≫= f) = f a.
Proof. done. Qed.

Lemma press_loop_total mouse_x mouse_y ics w :
  exists w', press_loop get_value mouse_x mouse_y w ics = Return w' /\
    width w' = width w /\ height w' = height w /\ _curves w' = _curves w /\
    updates w' = updates w.
Proof.
  unfold press_loop. revert w. induction ics as [|ic ics IH]; intros w.
  - by exists w.
  - destruct (press_curve_total mouse_x mouse_y w ic) as (w2 & Hw2 & ? & ? & ? & ?).
    destruct (IH w2) as (w' & Hw' & ? & ? & ? & ?).
    exists w'. rewrite foldM_cons, Hw2, bind_Return.
    repeat split; congruence.
Qed.

(** Once a point is selected, the rest of the loop neither inserts a point
    nor calls the change handler, and a selection remains. *)
Lemma press_loop_selected mouse_x mouse_y ics w :
  _selected_point w <> None ->
  exists w', press_loop get_value mouse_x mouse_y w ics = Return w' /\
    same_data w w' /\ _selected_point w' <> None.
Proof.
  unfold press_loop. revert w. induction ics as [|[index curve] ics IH]; intros w Hsel.
  - exists w. by split; [|split; [apply same_data_refl|]].
  - rewrite foldM_cons.
    destruct (press_curve_cases mouse_x mouse_y w index curve)
      as [[-> _]|[_ (_ & Hnone & _)]]; [|done].
    rewrite bind_Return.
    set (w1 := foldl _ w _).
    destruct (IH w1) as (w' & Hw' & Hd & Hsel').
    { by apply press_cv_points_keep. }
    exists w'. split; [done|]. split; [|done].
    eapply same_data_trans; [apply press_cv_points_data | exact Hd].
Qed.

(** When the loop ends without a selection, it has changed nothing. *)
Lemma press_loop_none mouse_x mouse_y ics w w' :
  press_loop get_value mouse_x mouse_y w ics = Return w' ->
  _selected_point w' = None -> w' = w.
Proof.
  unfold press_loop. revert w. induction ics as [|[index curve] ics IH]; intros w Hrun Hsel.
  - simpl in Hrun. congruence.
  - rewrite foldM_cons in Hrun.
    destruct (press_curve_cases mouse_x mouse_y w index curve)
      as [[Hstep _]|[Hstep _]]; rewrite Hstep, bind_Return in Hrun.
    + apply IH in Hrun as ->; [|done]. by apply press_cv_points_none.
    + apply IH in Hrun; [|done]. by subst w'.
Qed.

(** The loop writes to the displayed curves only. *)
Lemma press_loop_frame mouse_x mouse_y ics w w' r :
  press_loop get_value mouse_x mouse_y w ics = Return w' ->
  r ∉ snd <$> ics -> heap w' r = heap w r.
Proof.
  unfold press_loop. revert w. induction ics as [|[index curve] ics IH]; intros w Hrun Hr.
  - simpl in Hrun. congruence.
  - rewrite fmap_cons, not_elem_of_cons in Hr. destruct Hr as [Hne Hr]. simpl in Hne.
    rewrite foldM_cons in Hrun.
    destruct (press_curve_cases mouse_x mouse_y w index curve)
      as [[Hstep _]|[Hstep _]]; rewrite Hstep, bind_Return in Hrun.
    + rewrite (IH _ Hrun Hr).
      by destruct (press_cv_points_data mouse_x mouse_y index
                     (enumerate (get_cv_points (heap w curve))) w) as (-> & _).
    + rewrite (IH _ Hrun Hr). simpl. unfold store_curve.
      by destruct (decide (r = curve)).
Qed.

(** After a selection, curves whose control points all miss the pointer
    leave the state as it is. *)
Lemma press_loop_miss mouse_x mouse_y ics w :
  _selected_point w <> None ->
  (forall ic p, ic ∈ ics -> p ∈ get_cv_points (heap w (snd ic)) ->
     cv_hit w mouse_x mouse_y p = false) ->
  press_loop get_value mouse_x mouse_y w ics = Return w.
Proof.
  unfold press_loop. induction ics as [|[index curve] ics IH]; intros Hsel Hmiss; [done|].
  rewrite foldM_cons.
  assert (Hw1 : foldl (press_cv_point mouse_x mouse_y index) w
                  (enumerate (get_cv_points (heap w curve))) = w).
  { apply press_cv_points_miss. unfold enumerate.
    apply (Forall_imap_snd (fun p => cv_hit w mouse_x mouse_y p = false) id).
    apply Forall_forall. intros p Hp.
    apply (Hmiss (index, curve)); [left | done]. }
  destruct (press_curve_cases mouse_x mouse_y w index curve)
    as [[-> _]|[_ (_ & Hnone & _)]]; [|done].
  rewrite Hw1, bind_Return. apply IH; [done|].
  intros ic p Hic. apply Hmiss. by right.
Qed.

(** The loop inserts at most one point, and calls the change handler exactly
    when it does, after the insertion. *)
Lemma press_loop_edit mouse_x mouse_y ics w w' :
  press_loop get_value mouse_x mouse_y w ics = Return w' ->
  (heap w' = heap w /\ changes w' = changes w) \/
  (exists index curve, (index, curve) ∈ ics /\
     heap w' = heap (spawned get_value w index curve mouse_x) /\
     changes w' = changes w ++ [displayed_points w']).
Proof.
  unfold press_loop. revert w. induction ics as [|[index curve] ics IH]; intros w Hrun.
  - simpl in Hrun. left. split; congruence.
  - rewrite foldM_cons in Hrun.
    destruct (press_curve_cases mouse_x mouse_y w index curve)
      as [[Hstep _]|[Hstep _]]; rewrite Hstep, bind_Return in Hrun.
    + destruct (press_cv_points_data mouse_x mouse_y index
                  (enumerate (get_cv_points (heap w curve))) w)
        as (Hh & Hwd & Hht & Hc & Hch & Hu).
      destruct (IH _ Hrun) as [[? ?]|(i & c & Hin & Hheap & Hchg)].
      * left. split; congruence.
      * right. exists i, c. split; [by right|].
        rewrite Hheap, Hchg, Hch. split; [|done].
        unfold spawned, spawned_point. simpl. by rewrite Hh, Hwd.
    + right. exists index, curve. split; [by left|].
      destruct (press_loop_selected mouse_x mouse_y ics
                  (spawned get_value w index curve mouse_x)) as (w2 & Hw2 & Hd & _);
        [done|].
      unfold press_loop in Hw2. rewrite Hrun in Hw2. injection Hw2 as <-.
      destruct Hd as (Hh & _ & _ & Hc & Hch & _).
      split; [done|]. rewrite Hch. simpl.
      unfold displayed_points. by rewrite Hh, Hc.
Qed.

End Press.

(** ** The press handler: the whole event *)

Section PressEvent.

Variable get_value : Curve -> Q -> Q.

Lemma snd_imap_pair {A} (f : nat -> nat) (l : list A) :
  snd <$> imap (fun i => pair (f i)) l = l.
Proof.
  revert f. induction l as [|a l IH]; intros f; [done|].
  rewrite imap_cons, fmap_cons. simpl. f_equal. apply (IH (f ∘ S)).
Qed.

Lemma elem_of_imap_pair {A} (f : nat -> nat) (l : list A) (ia : nat * A) :
  ia ∈ imap (fun i => pair (f i)) l -> exists k, fst ia = f k /\ l !! k = Some (snd ia).
Proof.
  intros Hin. apply list_elem_of_lookup in Hin as [k Hk].
  rewrite list_lookup_imap in Hk.
  destruct (l !! k) as [a|] eqn:Hl; [|done].
  simpl in Hk. injection Hk as <-. by exists k.
Qed.

Lemma mousePressEvent_unfold pos_x pos_y w :
  mousePressEvent get_value pos_x pos_y w =
  (w' ← press_loop get_value (pos_x - _legend_border) (pos_y - _bar_h)
          (press_start w) (enumerate (_curves w));
   Return (update w')).
Proof. done. Qed.

Lemma press_loop_app mouse_x mouse_y w ics1 ics2 :
  press_loop get_value mouse_x mouse_y w (ics1 ++ ics2) =
  (w' ← press_loop get_value mouse_x mouse_y w ics1;
   press_loop get_value mouse_x mouse_y w' ics2).
Proof. apply foldM_app. Qed.

(** C3 (amended): within one press, after a point has been selected on an
    earlier curve (by a hit or by an insertion), no later curve receives an
    insertion, whether or not its body is near the pointer: the curves and
    the calls of the change handler stay as they were when the earlier curves
    had been handled.  One click inserts into at most one curve. *)
Theorem press_no_insertion_after_selection pos_x pos_y w pre post s1 :
  let mouse_x := pos_x - _legend_border in
  let mouse_y := pos_y - _bar_h in
  _curves w = pre ++ post ->
  press_loop get_value mouse_x mouse_y (press_start w) (enumerate pre) = Return s1 ->
  _selected_point s1 <> None ->
  exists w',
    mousePressEvent get_value pos_x pos_y w = Return w' /\
    heap w' = heap s1 /\ changes w' = changes s1 /\ _selected_point w' <> None.
Proof.
  intros mouse_x mouse_y Hcurves Hpre Hsel.
  rewrite mousePressEvent_unfold, Hcurves, enumerate_app, press_loop_app.
  fold mouse_x mouse_y. rewrite Hpre, bind_Return.
  destruct (press_loop_selected get_value mouse_x mouse_y
              (imap (fun i => pair (length pre + i)%nat) post) s1 Hsel)
    as (w2 & -> & (Hh & _ & _ & _ & Hch & _) & Hsel2).
  exists (update w2). by rewrite bind_Return.
Qed.

(** C2 (amended): in a press in which no point has been selected when a curve
    is reached, no control point of that curve contains the pointer, the
    pointer is in the click region (which contains the plot area) and the
    body of the curve is less than 8 pixels away from it, a control point is
    appended to that curve: its x is the pointer's normalized x, its y the
    sample of the curve there.  That point at once is the selection and the
    drag target with zero offset, and the change handler is called. *)
Theorem press_inserts_on_curve_body pos_x pos_y w pre r post s1 :
  let mouse_x := pos_x - _legend_border in
  let mouse_y := pos_y - _bar_h in
  _curves w = pre ++ r :: post ->
  press_loop get_value mouse_x mouse_y (press_start w) (enumerate pre) = Return s1 ->
  _selected_point s1 = None ->
  (forall p, p ∈ get_cv_points (heap w r) -> cv_hit w mouse_x mouse_y p = false) ->
  in_click_region w mouse_x mouse_y ->
  near_curve_body get_value w r mouse_x mouse_y = true ->
  let n := length (get_cv_points (heap w r)) in
  let x := (inject_Z mouse_x / inject_Z (plot_width w))%Q in
  let y := get_value (heap w r) x in
  exists s2 w',
    press_loop get_value mouse_x mouse_y (press_start w) (enumerate (pre ++ [r])) = Return s2 /\
    _selected_point s2 = Some (length pre, n) /\
    _drag_point s2 = Some (length pre, n, (0, 0)%Q) /\
    mousePressEvent get_value pos_x pos_y w = Return w' /\
    get_cv_points (heap w' r) = get_cv_points (heap w r) ++ [(x, y)] /\
    (forall r', r' <> r -> heap w' r' = heap w r') /\
    changes w' = changes w ++ [displayed_points w'].
Proof.
  intros mouse_x mouse_y Hcurves Hpre Hsel Hmiss Hregion Hnear n x y.
  apply press_loop_none in Hpre as Hs1; [|done]. subst s1.
  set (w0 := press_start w) in *.
  assert (Hstep : press_curve get_value mouse_x mouse_y w0 (length pre + 0, r)%nat
                  = Return (spawned get_value w0 (length pre) r mouse_x)).
  { rewrite Nat.add_0_r.
    destruct (press_curve_cases get_value mouse_x mouse_y w0 (length pre) r)
      as [[_ Hno]|[-> _]]; [|done].
    exfalso.
    rewrite press_cv_points_miss in Hno.
    - destruct Hno as [Hno|[Hno|Hno]]; [by apply Hno | done |].
      change (near_curve_body get_value w0 r mouse_x mouse_y)
        with (near_curve_body get_value w r mouse_x mouse_y) in Hno.
      congruence.
    - unfold enumerate.
      apply (Forall_imap_snd (fun p => cv_hit w0 mouse_x mouse_y p = false) id).
      apply Forall_forall. intros p Hp.
      rewrite (cv_hit_frame w w0) by done. by apply Hmiss. }
  set (s2 := spawned get_value w0 (length pre) r mouse_x) in *.
  assert (Hs2 : press_loop get_value mouse_x mouse_y w0 (enumerate (pre ++ [r])) = Return s2).
  { rewrite enumerate_app, press_loop_app, Hpre, bind_Return.
    unfold press_loop. rewrite imap_cons, foldM_cons, Hstep. done. }
  destruct (press_loop_selected get_value mouse_x mouse_y
              (imap (fun i => pair (length (pre ++ [r]) + i)%nat) post) s2)
    as (w2 & Hw2 & (Hh & _ & _ & Hc & Hch & _) & _); [done|].
  exists s2, (update w2). split; [done|]. split; [done|]. split; [done|].
  split.
  { rewrite mousePressEvent_unfold, Hcurves.
    fold mouse_x mouse_y w0.
    replace (pre ++ r :: post) with ((pre ++ [r]) ++ post) by by rewrite <- app_assoc.
    by rewrite enumerate_app, press_loop_app, Hs2, bind_Return, Hw2. }
  simpl. rewrite Hh. simpl. unfold store_curve.
  split; [|split].
  - by rewrite decide_True.
  - intros r' Hr'. by rewrite decide_False.
  - rewrite Hch. simpl. unfold displayed_points. simpl. by rewrite Hh, Hc.
Qed.

(** C1 (amended): on a press, the control points are tested curve by curve in
    display order and point by point in storage order, against the square
    tolerance of 3+6 pixels on each axis, and the last tested point that
    contains the pointer wins: it is the selection and the drag target after
    the press, with the pixel delta between point and pointer as offset, and
    it replaces every point that matched before it.  (The displayed curves
    are distinct objects.) *)
Theorem press_last_match_wins pos_x pos_y w i r j p :
  let mouse_x := pos_x - _legend_border in
  let mouse_y := pos_y - _bar_h in
  NoDup (_curves w) ->
  _curves w !! i = Some r ->
  get_cv_points (heap w r) !! j = Some p ->
  cv_hit w mouse_x mouse_y p = true ->
  (forall j' p', (j < j')%nat -> get_cv_points (heap w r) !! j' = Some p' ->
     cv_hit w mouse_x mouse_y p' = false) ->
  (forall i' r' p', (i < i')%nat -> _curves w !! i' = Some r' ->
     p' ∈ get_cv_points (heap w r') -> cv_hit w mouse_x mouse_y p' = false) ->
  exists w',
    mousePressEvent get_value pos_x pos_y w = Return w' /\
    _selected_point w' = Some (i, j) /\
    _drag_point w' = Some (i, j, grab_offset w mouse_x mouse_y p).
Proof.
  intros mouse_x mouse_y Hnodup Hi Hj Hp Hlater_points Hlater_curves.
  set (pre := take i (_curves w)). set (post := drop (S i) (_curves w)).
  assert (Hcurves : _curves w = pre ++ r :: post)
    by (symmetry; by apply take_drop_middle).
  assert (Hlen : length pre = i).
  { unfold pre. rewrite length_take. apply lookup_lt_Some in Hi. lia. }
  rewrite Hcurves in Hnodup.
  apply NoDup_app in Hnodup as (_ & Hdisj & Hnodup').
  apply NoDup_cons in Hnodup' as [_ _].
  (* the curves before [r] *)
  set (w0 := press_start w).
  destruct (press_loop_total get_value mouse_x mouse_y (enumerate pre) w0)
    as (s1 & Hs1 & Hwd1 & Hht1 & _).
  change (width w0) with (width w) in Hwd1.
  change (height w0) with (height w) in Hht1.
  assert (Hheap1 : forall r', r' ∈ r :: post -> heap s1 r' = heap w r').
  { intros r' Hr'.
    rewrite (press_loop_frame get_value mouse_x mouse_y (enumerate pre) w0 s1); [done..|].
    unfold enumerate. rewrite (snd_imap_pair id).
    intros Hin. by apply (Hdisj r'). }
  (* the curve [r] *)
  set (pts := get_cv_points (heap w r)) in *.
  assert (Henum : enumerate pts = enumerate (take j pts)
                    ++ (j, p) :: imap ((fun k => pair (j + k)%nat) ∘ S) (drop (S j) pts)).
  { rewrite <- (take_drop_middle pts j p) at 1 by done.
    rewrite enumerate_app, imap_cons, length_take, Nat.add_0_r.
    apply lookup_lt_Some in Hj. by rewrite Nat.min_l by lia. }
  set (w1 := foldl (press_cv_point mouse_x mouse_y i) s1
               (enumerate (get_cv_points (heap s1 r)))).
  assert (Hw1 : _selected_point w1 = Some (i, j) /\
                _drag_point w1 = Some (i, j, grab_offset w mouse_x mouse_y p)).
  { unfold w1. rewrite Hheap1 by left. fold pts.
    rewrite Henum, <- (grab_offset_frame w s1) by done.
    apply press_cv_points_last.
    - by rewrite (cv_hit_frame w s1).
    - apply (Forall_imap_snd (fun p' => cv_hit s1 mouse_x mouse_y p' = false)).
      apply Forall_forall. intros p' Hp'.
      apply list_elem_of_lookup in Hp' as [k Hk].
      rewrite lookup_drop in Hk.
      rewrite (cv_hit_frame w s1) by done.
      apply (Hlater_points (S j + k)%nat); [lia | done]. }
  destruct Hw1 as [Hsel1 Hdrag1].
  assert (Hd1 : same_data s1 w1) by apply press_cv_points_data.
  assert (Hstep : press_curve get_value mouse_x mouse_y s1 (i, r) = Return w1).
  { destruct (press_curve_cases get_value mouse_x mouse_y s1 i r)
      as [[Hstep _]|[_ (Heq & Hnone & _)]]; [done|].
    fold w1 in Heq. rewrite <- Heq in Hnone. congruence. }
  (* the curves after [r] *)
  assert (Hpost : press_loop get_value mouse_x mouse_y w1
                    (imap ((fun k => pair (length pre + k)%nat) ∘ S) post) = Return w1).
  { apply press_loop_miss; [congruence|].
    intros [i' r'] p' Hin Hp'. simpl in Hp'.
    apply (elem_of_imap_pair (fun k => (length pre + S k)%nat)) in Hin as (k & Hi' & Hk).
    simpl in Hi', Hk.
    destruct Hd1 as (Hh1 & Hwd & Hht & _).
    rewrite Hh1, Hheap1 in Hp' by (right; by eapply list_elem_of_lookup_2).
    rewrite (cv_hit_frame w w1) by congruence.
    apply (Hlater_curves i' r' p'); [lia| |done].
    rewrite Hcurves, lookup_app_r by lia.
    replace (i' - length pre)%nat with (S k) by lia. done. }
  exists (update w1). split; [|done].
  rewrite mousePressEvent_unfold, Hcurves, enumerate_app, press_loop_app.
  fold mouse_x mouse_y w0. rewrite Hs1, bind_Return.
  rewrite imap_cons, Hlen, Nat.add_0_r. rewrite Hlen in Hpost.
  unfold press_loop. rewrite foldM_cons, Hstep, bind_Return.
  unfold press_loop in Hpost. by rewrite Hpost.
Qed.

End PressEvent.

(** ** The press handler on a canvas of 400 by 300 pixels *)

Lemma press_last_match_wins_witness :
  cv_hit (widget_of 400 300 [close_points_curve]) 174 109 (51 # 100, 1 # 2)%Q = true /\
  exists w',
    mousePressEvent linear_get_value 226 139 (widget_of 400 300 [close_points_curve])
      = Return w' /\
    _selected_point w' = Some (0, 1)%nat /\
    _drag_point w' = Some (0%nat, 1%nat,
                           grab_offset (widget_of 400 300 [close_points_curve])
                             (226 - _legend_border) (139 - _bar_h) (51 # 100, 1 # 2)%Q).
Proof.
  split; [reflexivity|].
  apply (press_last_match_wins linear_get_value 226 139
           (widget_of 400 300 [close_points_curve]) 0%nat 0%nat 1%nat (51 # 100, 1 # 2)%Q).
  - apply NoDup_singleton.
  - reflexivity.
  - reflexivity.
  - reflexivity.
  - intros [|[|[|j']]] p' Hlt Hp'; simpl in Hp'; first [lia | discriminate].
  - intros [|[|i']] r' p' Hlt Hr'; simpl in Hr'; first [lia | discriminate].
Defined.

(** C1 (as stated) fails: both control points of the curve contain the
    pointer, the first one is tested first, and after the press the second
    one is selected and grabbed. *)
Lemma press_first_match_replaced :
  let w := widget_of 400 300 [close_points_curve] in
  get_cv_points (heap w 0%nat) = [(1 # 2, 1 # 2)%Q; (51 # 100, 1 # 2)%Q] /\
  cv_hit w (226 - _legend_border) (139 - _bar_h) (1 # 2, 1 # 2)%Q = true /\
  cv_hit w (226 - _legend_border) (139 - _bar_h) (51 # 100, 1 # 2)%Q = true /\
  exists w' offset,
    mousePressEvent linear_get_value 226 139 w = Return w' /\
    _selected_point w' = Some (0, 1)%nat /\
    _drag_point w' = Some (0%nat, 1%nat, offset).
Proof.
  split; [reflexivity|]. split; [reflexivity|]. split; [reflexivity|].
  eexists. eexists. split; [vm_compute; reflexivity|].
  split; reflexivity.
Qed.

Lemma press_inserts_on_curve_body_witness :
  exists s2 w',
    press_loop linear_get_value (102 - _legend_border) (139 - _bar_h)
      (press_start (widget_of 400 300 [mid_point_curve])) (enumerate ([] ++ [0%nat]))
      = Return s2 /\
    _selected_point s2 = Some (0, 1)%nat /\
    _drag_point s2 = Some (0%nat, 1%nat, (0, 0)%Q) /\
    mousePressEvent linear_get_value 102 139 (widget_of 400 300 [mid_point_curve])
      = Return w' /\
    get_cv_points (heap w' 0%nat) = [(1 # 2, 1 # 2)%Q] ++ [((50 / 348)%Q, clamp01 (1 # 2))] /\
    (forall r', r' <> 0%nat ->
       heap w' r' = heap (widget_of 400 300 [mid_point_curve]) r') /\
    changes w' = [] ++ [displayed_points w'].
Proof.
  apply (press_inserts_on_curve_body linear_get_value 102 139
           (widget_of 400 300 [mid_point_curve]) [] 0%nat []
           (press_start (widget_of 400 300 [mid_point_curve]))).
  - reflexivity.
  - reflexivity.
  - reflexivity.
  - intros p Hp. apply list_elem_of_singleton in Hp. subst p. reflexivity.
  - unfold in_click_region. simpl. unfold _legend_border, _bar_h. lia.
  - reflexivity.
Defined.

(** C2 (as stated) fails: no control point of the second curve contains the
    pointer, the pointer is inside the plot area and on the body of the
    second curve, and yet the press appends no point to it, because it has
    selected a control point of the first curve before. *)
Lemma press_body_without_insertion :
  let w := widget_of 400 300 [mid_point_curve; left_point_curve] in
  let mouse_x := 222 - _legend_border in
  let mouse_y := 139 - _bar_h in
  (forall p, p ∈ get_cv_points (heap w 1%nat) -> cv_hit w mouse_x mouse_y p = false) /\
  (0 < mouse_x < plot_width w /\ 0 < mouse_y < plot_height w) /\
  near_curve_body linear_get_value w 1%nat mouse_x mouse_y = true /\
  exists w',
    mousePressEvent linear_get_value 222 139 w = Return w' /\
    get_cv_points (heap w' 1%nat) = get_cv_points (heap w 1%nat) /\
    _selected_point w' = Some (0, 0)%nat.
Proof.
  split; [|split; [|split]].
  - intros p Hp. apply list_elem_of_singleton in Hp. subst p. reflexivity.
  - vm_compute. repeat split; congruence.
  - reflexivity.
  - eexists. split; [vm_compute; reflexivity|]. split; reflexivity.
Qed.

Lemma press_no_insertion_after_selection_witness :
  _selected_point (spawned linear_get_value
                     (press_start (widget_of 400 300 [left_point_curve; left_point_curve]))
                     0%nat 0%nat 170) <> None /\
  exists w',
    mousePressEvent linear_get_value 222 139
      (widget_of 400 300 [left_point_curve; left_point_curve]) = Return w' /\
    heap w' = heap (spawned linear_get_value
                      (press_start (widget_of 400 300 [left_point_curve; left_point_curve]))
                      0%nat 0%nat 170) /\
    changes w' = changes (spawned linear_get_value
                      (press_start (widget_of 400 300 [left_point_curve; left_point_curve]))
                      0%nat 0%nat 170) /\
    _selected_point w' <> None.
Proof.
  split; [discriminate|].
  apply (press_no_insertion_after_selection linear_get_value 222 139
           (widget_of 400 300 [left_point_curve; left_point_curve]) [0%nat] [1%nat]).
  - reflexivity.
  - reflexivity.
  - discriminate.
Defined.

(** C3 (as stated) fails: the press inserts a point into the first curve and
    selects it; the second curve passes its own test of the curve body, and
    its control points stay as they were. *)
Lemma press_single_insertion :
  let w := widget_of 400 300 [left_point_curve; left_point_curve] in
  let mouse_x := 222 - _legend_border in
  let mouse_y := 139 - _bar_h in
  exists w',
    mousePressEvent linear_get_value 222 139 w = Return w' /\
    length (get_cv_points (heap w' 0%nat)) = S (length (get_cv_points (heap w 0%nat))) /\
    _selected_point w' = Some (0, 1)%nat /\
    (0 < mouse_x < plot_width w' /\ 0 < mouse_y < plot_height w') /\
    near_curve_body linear_get_value w 1%nat mouse_x mouse_y = true /\
    near_curve_body linear_get_value w' 1%nat mouse_x mouse_y = true /\
    get_cv_points (heap w' 1%nat) = get_cv_points (heap w 1%nat).
Proof.
  eexists. split; [vm_compute; reflexivity|].
  split; [reflexivity|]. split; [reflexivity|].
  split; [vm_compute; repeat split; congruence|].
  split; [reflexivity|]. split; reflexivity.
Qed.

(** ** The move handler *)

Lemma py_index_lookup {A} (l : list A) (i : nat) (a : A) :
  l !! i = Some a -> py_index l i = Return a.
Proof. unfold py_index. by intros ->. Qed.

Lemma py_index_None {A} (l : list A) (i : nat) :
  l !! i = None -> py_index l i = Raise IndexError.
Proof. unfold py_index. by intros ->. Qed.

Lemma mouseMoveEvent_idle pos_x pos_y w :
  _curves w = [] \/ _drag_point w = None -> mouseMoveEvent pos_x pos_y w = Return w.
Proof.
  unfold mouseMoveEvent. intros [Hc|Hd].
  - rewrite Hc. done.
  - rewrite Hd. by destruct (decide _).
Qed.

(** What a move does during a drag: it faults on a plot without width or
    height and on a stale index, and writes the clamped coordinates
    otherwise. *)
Lemma mouseMoveEvent_drag pos_x pos_y w ci pi ox oy r :
  _drag_point w = Some (ci, pi, (ox, oy)) ->
  _curves w !! ci = Some r ->
  mouseMoveEvent pos_x pos_y w =
  if decide (plot_width w = 0) then Raise ZeroDivisionError
  else if decide (plot_height w = 0) then Raise ZeroDivisionError
  else if decide (pi < length (get_cv_points (heap w r)))%nat
       then Return (dragged w r pi (drag_local_x w pos_x ox) (drag_local_y w pos_y oy))
       else Raise InvalidControlPointIndex.
Proof.
  intros Hdrag Hr. unfold mouseMoveEvent. rewrite Hdrag.
  destruct (decide (length (_curves w) < 1)%nat) as [Hlen|_].
  { apply lookup_lt_Some in Hr. lia. }
  unfold plot_width, plot_height.
  destruct (decide (width w - _legend_border = 0)) as [Hw|Hw].
  { rewrite (py_div_zero _ (inject_Z (width w - _legend_border))); [done|].
    by apply inject_Z_eq0. }
  rewrite (py_div_ok _ (inject_Z (width w - _legend_border)))
    by (by rewrite inject_Z_eq0).
  rewrite bind_Return.
  destruct (decide (height w - _legend_border - _bar_h = 0)) as [Hh|Hh].
  { rewrite py_div_zero; [done|]. by apply inject_Z_eq0. }
  rewrite py_div_ok by (by rewrite inject_Z_eq0). rewrite bind_Return.
  rewrite (py_index_lookup _ _ _ Hr), bind_Return.
  unfold set_cv_value.
  destruct (decide (pi < length _)%nat); [|done].
  rewrite bind_Return.
  change (_curves (set_heap ?h w)) with (_curves w).
  by rewrite (py_index_lookup _ _ _ Hr), bind_Return.
Qed.

Lemma dragged_fields w r pi x y :
  let w' := dragged w r pi x y in
  get_cv_points (heap w' r) = <[pi := (x, y)]> (get_cv_points (heap w r)) /\
  (forall r', r' <> r -> heap w' r' = heap w r') /\
  _curves w' = _curves w /\
  _selected_point w' = _selected_point w /\ _drag_point w' = _drag_point w /\
  changes w' = changes w ++ [displayed_points w'].
Proof.
  split; [|split; [|by repeat split]].
  - simpl. unfold store_curve, build_curve. by rewrite !decide_True.
  - intros r' Hr'. simpl. unfold store_curve. by rewrite !decide_False.
Qed.

(** C5: in a move event during a drag, the normalized coordinates written
    into the dragged control point lie in [0,1] on both axes; on a plot of
    positive size the move writes them, and a target pixel position beyond
    the plot on an axis saturates the coordinate of that axis at 0 or 1. *)
Theorem mouseMoveEvent_clamps pos_x pos_y w ci pi ox oy r :
  let target_x := (inject_Z pos_x - ox - inject_Z _legend_border)%Q in
  let target_y := (inject_Z pos_y - oy - inject_Z _bar_h)%Q in
  _drag_point w = Some (ci, pi, (ox, oy)) ->
  _curves w !! ci = Some r ->
  (forall w', mouseMoveEvent pos_x pos_y w = Return w' ->
     exists x y, get_cv_points (heap w' r) !! pi = Some (x, y) /\
       (0 <= x <= 1)%Q /\ (0 <= y <= 1)%Q) /\
  (0 < plot_width w -> 0 < plot_height w ->
   (pi < length (get_cv_points (heap w r)))%nat ->
   exists w' x y,
     mouseMoveEvent pos_x pos_y w = Return w' /\
     get_cv_points (heap w' r) !! pi = Some (x, y) /\
     ((inject_Z (plot_width w) <= target_x)%Q -> (x == 1)%Q) /\
     ((target_x <= 0)%Q -> (x == 0)%Q) /\
     ((inject_Z (plot_height w) <= target_y)%Q -> (y == 0)%Q) /\
     ((target_y <= 0)%Q -> (y == 1)%Q)).
Proof.
  intros target_x target_y Hdrag Hr.
  rewrite (mouseMoveEvent_drag pos_x pos_y w ci pi ox oy r Hdrag Hr).
  split.
  - intros w' Hrun.
    destruct (decide (plot_width w = 0)); [done|].
    destruct (decide (plot_height w = 0)); [done|].
    destruct (decide (pi < length _)%nat) as [Hpi|]; [|done].
    injection Hrun as <-.
    destruct (dragged_fields w r pi (drag_local_x w pos_x ox) (drag_local_y w pos_y oy))
      as (-> & _).
    eexists _, _. split; [by apply list_lookup_insert_eq|].
    unfold drag_local_x, drag_local_y. split; [apply clamp_bounds|].
    match goal with |- context [Qmax 0 (Qmin 1 ?v)] =>
      pose proof (clamp_bounds v) as [? ?]; set (c := Qmax 0 (Qmin 1 v)) in * end.
    split; lra.
  - intros Hw Hh Hpi.
    rewrite decide_False by lia. rewrite decide_False by lia.
    rewrite decide_True by done.
    destruct (dragged_fields w r pi (drag_local_x w pos_x ox) (drag_local_y w pos_y oy))
      as (Hpts & _).
    eexists _, _, _. split; [done|]. rewrite Hpts.
    split; [by apply list_lookup_insert_eq|].
    assert (HW : (0 < inject_Z (plot_width w))%Q) by (unfold Qlt; simpl; lia).
    assert (HH : (0 < inject_Z (plot_height w))%Q) by (unfold Qlt; simpl; lia).
    unfold drag_local_x, drag_local_y. fold target_x target_y.
    fold (plot_width w) (plot_height w).
    repeat split.
    + intros Hx. apply clamp_high. apply Qle_shift_div_l; [done|]. by rewrite Qmult_1_l.
    + intros Hx. apply clamp_low. apply Qle_shift_div_r; [done|]. by rewrite Qmult_0_l.
    + intros Hy. rewrite clamp_high; [reflexivity|].
      apply Qle_shift_div_l; [done|]. by rewrite Qmult_1_l.
    + intros Hy. rewrite clamp_low; [reflexivity|].
      apply Qle_shift_div_r; [done|]. by rewrite Qmult_0_l.
Qed.

Lemma mouseMoveEvent_clamps_witness :
  exists w' x y,
    mouseMoveEvent 500 10
      (set__drag_point (Some (0%nat, 0%nat, (4, 0)%Q)) (widget_of 400 300 [mid_point_curve]))
      = Return w' /\
    get_cv_points (heap w' 0%nat) !! 0%nat = Some (x, y) /\
    (x == 1)%Q /\ (y == 1)%Q.
Proof.
  destruct (proj2 (mouseMoveEvent_clamps 500 10
              (set__drag_point (Some (0%nat, 0%nat, (4, 0)%Q))
                 (widget_of 400 300 [mid_point_curve]))
              0%nat 0%nat 4%Q 0%Q 0%nat eq_refl eq_refl))
    as (w' & x & y & Hrun & Hpoint & Hx1 & _ & _ & Hy1).
  - reflexivity.
  - reflexivity.
  - simpl. lia.
  - exists w', x, y. split; [exact Hrun|]. split; [exact Hpoint|]. split.
    + apply Hx1. vm_compute. discriminate.
    + apply Hy1. vm_compute. discriminate.
Defined.

(** ** Deletion *)

Lemma delete_current_point_selected w ci pi r :
  _selected_point w = Some (ci, pi) ->
  _curves w !! ci = Some r ->
  delete_current_point w =
  if decide (pi < length (get_cv_points (heap w r)))%nat
  then Return (deleted w r pi) else Raise InvalidControlPointIndex.
Proof.
  intros Hsel Hr. unfold delete_current_point. rewrite Hsel.
  rewrite (py_index_lookup _ _ _ Hr), bind_Return.
  unfold remove_cv. by destruct (decide (pi < length _)%nat).
Qed.

Lemma deleted_fields w r pi :
  let w' := deleted w r pi in
  get_cv_points (heap w' r) = delete pi (get_cv_points (heap w r)) /\
  (forall r', r' <> r -> heap w' r' = heap w r') /\
  _curves w' = _curves w /\
  _selected_point w' = None /\ _drag_point w' = None /\
  updates w' = S (updates w) /\
  changes w' = changes w ++ [displayed_points w'].
Proof.
  split; [|split; [|by repeat split]].
  - simpl. unfold store_curve. by rewrite decide_True.
  - intros r' Hr'. simpl. unfold store_curve. by rewrite decide_False.
Qed.

(** C6: on a delete-key signal with a selection (that refers to a control
    point of a displayed curve), exactly that control point is removed from
    its curve, the other curves stay as they are, selection and drag target
    become empty, and the change handler is called exactly once; without a
    selection the state stays as it is and the handler is not called. *)
Theorem delete_current_point_spec w :
  (forall ci pi r,
     _selected_point w = Some (ci, pi) ->
     _curves w !! ci = Some r ->
     (pi < length (get_cv_points (heap w r)))%nat ->
     exists w',
       keyPressEvent true w = Return w' /\
       get_cv_points (heap w' r) = delete pi (get_cv_points (heap w r)) /\
       S (length (get_cv_points (heap w' r))) = length (get_cv_points (heap w r)) /\
       (forall r', r' <> r -> heap w' r' = heap w r') /\
       _curves w' = _curves w /\
       _selected_point w' = None /\ _drag_point w' = None /\
       changes w' = changes w ++ [displayed_points w']) /\
  (_selected_point w = None -> keyPressEvent true w = Return w).
Proof.
  unfold keyPressEvent. split.
  - intros ci pi r Hsel Hr Hpi.
    rewrite (delete_current_point_selected w ci pi r Hsel Hr), decide_True by done.
    destruct (deleted_fields w r pi) as (Hpts & Hframe & Hc & Hs & Hd & _ & Hch).
    exists (deleted w r pi). rewrite Hpts.
    repeat split; try done.
    rewrite length_delete; [lia|]. by apply lookup_lt_is_Some_2.
  - intros Hsel. unfold delete_current_point. by rewrite Hsel.
Qed.

Lemma delete_current_point_spec_witness :
  exists w',
    keyPressEvent true
      (set__selected_point (Some (0, 1)%nat) (widget_of 400 300 [close_points_curve]))
      = Return w' /\
    get_cv_points (heap w' 0%nat) = [(1 # 2, 1 # 2)%Q] /\
    _selected_point w' = None /\ _drag_point w' = None /\
    changes w' = [[[(1 # 2, 1 # 2)%Q]]].
Proof.
  destruct (proj1 (delete_current_point_spec
                     (set__selected_point (Some (0, 1)%nat)
                        (widget_of 400 300 [close_points_curve])))
              0%nat 1%nat 0%nat eq_refl eq_refl)
    as (w' & Hrun & Hpts & _ & _ & Hc & Hsel & Hdrag & Hch).
  - simpl. lia.
  - exists w'. split; [exact Hrun|]. split; [exact Hpts|].
    split; [exact Hsel|]. split; [exact Hdrag|].
    rewrite Hch. unfold displayed_points. rewrite Hc. simpl. by rewrite Hpts.
Defined.

(** ** The change handler and degenerate plots *)

Section Notification.

Variable get_value : Curve -> Q -> Q.

Lemma elem_of_enumerate {A} (l : list A) (i : nat) (a : A) :
  (i, a) ∈ enumerate l -> l !! i = Some a.
Proof.
  intros Hin. apply (elem_of_imap_pair id) in Hin as (k & Hi & Hk).
  simpl in Hi, Hk. by subst k.
Qed.

Lemma mousePressEvent_total pos_x pos_y w :
  exists w', mousePressEvent get_value pos_x pos_y w = Return w'.
Proof.
  rewrite mousePressEvent_unfold.
  destruct (press_loop_total get_value (pos_x - _legend_border) (pos_y - _bar_h)
              (enumerate (_curves w)) (press_start w)) as (w2 & -> & _).
  by exists (update w2).
Qed.

(** C7: the change handler is called after every edit of the curves and
    only then.  A press calls it once, after the insertion, when it inserts
    a control point, and not at all when it only selects (the curves stay as
    they are); a move calls it once, after the write, when it drags a point,
    and not when there is no drag; a deletion calls it once, after the
    removal, and not without a selection; a release never calls it. *)
Theorem change_handler_follows_edits w :
  (forall pos_x pos_y, exists w',
     mousePressEvent get_value pos_x pos_y w = Return w' /\
     ((heap w' = heap w /\ changes w' = changes w) \/
      (exists curve,
         curve ∈ _curves w /\
         get_cv_points (heap w' curve)
           = get_cv_points (heap w curve)
               ++ [spawned_point get_value w curve (pos_x - _legend_border)] /\
         (forall r', r' <> curve -> heap w' r' = heap w r') /\
         changes w' = changes w ++ [displayed_points w']))) /\
  (forall pos_x pos_y w',
     mouseMoveEvent pos_x pos_y w = Return w' ->
     (w' = w /\ (_curves w = [] \/ _drag_point w = None)) \/
     (exists ci pi offset r x y,
        _drag_point w = Some (ci, pi, offset) /\ _curves w !! ci = Some r /\
        get_cv_points (heap w' r) = <[pi := (x, y)]> (get_cv_points (heap w r)) /\
        (forall r', r' <> r -> heap w' r' = heap w r') /\
        changes w' = changes w ++ [displayed_points w'])) /\
  (forall w',
     keyPressEvent true w = Return w' ->
     (w' = w /\ _selected_point w = None) \/
     (exists ci pi r,
        _selected_point w = Some (ci, pi) /\ _curves w !! ci = Some r /\
        get_cv_points (heap w' r) = delete pi (get_cv_points (heap w r)) /\
        (forall r', r' <> r -> heap w' r' = heap w r') /\
        changes w' = changes w ++ [displayed_points w'])) /\
  (heap (mouseReleaseEvent w) = heap w /\
   changes (mouseReleaseEvent w) = changes w).
Proof.
  split; [|split; [|split]].
  - intros pos_x pos_y. rewrite mousePressEvent_unfold.
    set (mouse_x := pos_x - _legend_border). set (mouse_y := pos_y - _bar_h).
    destruct (press_loop_total get_value mouse_x mouse_y
                (enumerate (_curves w)) (press_start w)) as (w2 & Hrun & _).
    rewrite Hrun, bind_Return. exists (update w2). split; [done|].
    destruct (press_loop_edit get_value mouse_x mouse_y _ _ _ Hrun)
      as [[Hh Hch]|(index & curve & Hin & Hh & Hch)]; [by left|].
    right. exists curve. simpl. rewrite Hh. simpl. unfold store_curve.
    split; [|split; [|split]].
    + apply elem_of_enumerate in Hin. by eapply list_elem_of_lookup_2.
    + by rewrite decide_True.
    + intros r' Hr'. by rewrite decide_False.
    + exact Hch.
  - intros pos_x pos_y w' Hrun.
    destruct (_drag_point w) as [[[ci pi] [ox oy]]|] eqn:Hdrag.
    2: { left. rewrite mouseMoveEvent_idle in Hrun by (by right).
         injection Hrun as <-. split; [done | by right]. }
    destruct (_curves w !! ci) as [r|] eqn:Hr.
    + right. rewrite (mouseMoveEvent_drag pos_x pos_y w ci pi ox oy r Hdrag Hr) in Hrun.
      destruct (decide (plot_width w = 0)); [done|].
      destruct (decide (plot_height w = 0)); [done|].
      destruct (decide (pi < length _)%nat); [|done].
      injection Hrun as <-.
      destruct (dragged_fields w r pi (drag_local_x w pos_x ox) (drag_local_y w pos_y oy))
        as (Hpts & Hframe & _ & _ & _ & Hch).
      by eexists ci, pi, (ox, oy), r, _, _.
    + unfold mouseMoveEvent in Hrun. rewrite Hdrag in Hrun.
      destruct (decide (length (_curves w) < 1)%nat) as [Hlen|_].
      { left. injection Hrun as <-. split; [done|]. left.
        destruct (_curves w); [done | simpl in Hlen; lia]. }
      exfalso.
      destruct (py_div _ (inject_Z (width w - _legend_border))); [|done].
      rewrite bind_Return in Hrun.
      destruct (py_div _ _); [|done].
      rewrite bind_Return in Hrun.
      by rewrite (py_index_None _ _ Hr) in Hrun.
  - unfold keyPressEvent. intros w' Hrun.
    destruct (_selected_point w) as [[ci pi]|] eqn:Hsel.
    2: { left. unfold delete_current_point in Hrun. rewrite Hsel in Hrun.
         injection Hrun as <-. done. }
    right. destruct (_curves w !! ci) as [r|] eqn:Hr.
    + rewrite (delete_current_point_selected w ci pi r Hsel Hr) in Hrun.
      destruct (decide (pi < length _)%nat); [|done].
      injection Hrun as <-.
      destruct (deleted_fields w r pi) as (Hpts & Hframe & _ & _ & _ & _ & Hch).
      by exists ci, pi, r.
    + exfalso. unfold delete_current_point in Hrun. rewrite Hsel in Hrun.
      by rewrite (py_index_None _ _ Hr) in Hrun.
  - done.
Qed.

(** C8 (amended): on a plot without width or height a press divides by
    nothing and returns; a move outside of a drag returns and leaves the
    state as it is; a move during a drag raises [ZeroDivisionError], and it
    does so exactly when the plot has width 0 or height 0. *)
Theorem degenerate_plot_faults w :
  (forall pos_x pos_y, exists w', mousePressEvent get_value pos_x pos_y w = Return w') /\
  (forall pos_x pos_y,
     _curves w = [] \/ _drag_point w = None -> mouseMoveEvent pos_x pos_y w = Return w) /\
  (forall pos_x pos_y,
     _curves w <> [] -> _drag_point w <> None ->
     (mouseMoveEvent pos_x pos_y w = Raise ZeroDivisionError
      <-> plot_width w = 0 \/ plot_height w = 0)).
Proof.
  split; [|split].
  - intros pos_x pos_y. apply mousePressEvent_total.
  - intros pos_x pos_y. apply mouseMoveEvent_idle.
  - intros pos_x pos_y Hc Hd.
    destruct (_drag_point w) as [[[ci pi] [ox oy]]|] eqn:Hdrag; [clear Hd|done].
    destruct (_curves w !! ci) as [r|] eqn:Hr.
    + rewrite (mouseMoveEvent_drag pos_x pos_y w ci pi ox oy r Hdrag Hr).
      destruct (decide (plot_width w = 0)); [by split; [left|]|].
      destruct (decide (plot_height w = 0)); [by split; [right|]|].
      destruct (decide (pi < length _)%nat); (split; [done | by intros [?|?]]).
    + unfold mouseMoveEvent. rewrite Hdrag.
      destruct (decide (length (_curves w) < 1)%nat) as [Hlen|_].
      { destruct (_curves w); [done | simpl in Hlen; lia]. }
      unfold plot_width, plot_height.
      destruct (decide (width w - _legend_border = 0)) as [Hw|Hw].
      { rewrite (py_div_zero _ (inject_Z (width w - _legend_border)))
          by (by apply inject_Z_eq0).
        by split; [left|]. }
      rewrite (py_div_ok _ (inject_Z (width w - _legend_border)))
        by (by rewrite inject_Z_eq0).
      rewrite bind_Return.
      destruct (decide (height w - _legend_border - _bar_h = 0)) as [Hh|Hh].
      { rewrite py_div_zero by (by apply inject_Z_eq0). by split; [right|]. }
      rewrite py_div_ok by (by rewrite inject_Z_eq0). rewrite bind_Return.
      rewrite (py_index_None _ _ Hr).
      split; [done | by intros [?|?]].
Qed.

End Notification.

Lemma change_handler_follows_edits_witness :
  let w := set__drag_point (Some (0%nat, 0%nat, (4, 0)%Q))
             (widget_of 400 300 [mid_point_curve]) in
  let w' := dragged w 0%nat 0%nat (drag_local_x w 222 4) (drag_local_y w 139 0) in
  mouseMoveEvent 222 139 w = Return w' /\
  ((w' = w /\ (_curves w = [] \/ _drag_point w = None)) \/
   (exists ci pi offset r x y,
      _drag_point w = Some (ci, pi, offset) /\ _curves w !! ci = Some r /\
      get_cv_points (heap w' r) = <[pi := (x, y)]> (get_cv_points (heap w r)) /\
      (forall r', r' <> r -> heap w' r' = heap w r') /\
      changes w' = changes w ++ [displayed_points w'])).
Proof.
  intros w w'. split; [reflexivity|].
  apply (proj1 (proj2 (change_handler_follows_edits linear_get_value w)) 222 139 w').
  reflexivity.
Defined.

Lemma degenerate_plot_faults_witness :
  let w := set__drag_point (Some (0%nat, 0%nat, (0, 0)%Q))
             (widget_of 52 300 [mid_point_curve]) in
  plot_width w = 0 /\ mouseMoveEvent 60 139 w = Raise ZeroDivisionError.
Proof.
  intros w. split; [reflexivity|].
  apply (proj2 (proj2 (degenerate_plot_faults linear_get_value w)) 60 139).
  - discriminate.
  - discriminate.
  - left. reflexivity.
Defined.

(** C8 (as stated) fails: on a widget as wide as the legend border the plot
    has width 0; a press grabs the control point, and the move that follows
    raises [ZeroDivisionError] instead of returning a default. *)
Lemma move_on_empty_plot_raises :
  let w := widget_of 52 300 [mid_point_curve] in
  width w = _legend_border /\
  exists w1 offset,
    mousePressEvent linear_get_value 52 139 w = Return w1 /\
    _drag_point w1 = Some (0%nat, 0%nat, offset) /\
    mouseMoveEvent 60 139 w1 = Raise ZeroDivisionError.
Proof.
  split; [reflexivity|].
  eexists. eexists. split; [vm_compute; reflexivity|].
  split; reflexivity.
Qed.

(** ** The grab offset *)

(** What a move makes of the grab offset of a press: the offset is the pixel
    delta from the pointer to the point, and the move subtracts it from the
    pointer position, so with the pointer at rest at [m] a point grabbed at
    [p] is sent to the mirror image [2m - p] (then clamped). *)
Lemma drag_local_x_mirror w pos_x mouse_y p :
  let mouse_x := pos_x - _legend_border in
  (drag_local_x w pos_x (fst (grab_offset w mouse_x mouse_y p))
   == Qmax 0 (Qmin 1 ((2 * inject_Z mouse_x - fst (point_px w p))
                       / inject_Z (plot_width w))))%Q.
Proof.
  intros mouse_x. unfold drag_local_x, grab_offset, mouse_x, plot_width.
  cbn [fst].
  apply Q.max_compat; [reflexivity|].
  apply Q.min_compat; [reflexivity|].
  unfold Zminus. rewrite !inject_Z_plus, !inject_Z_opp.
  unfold Qdiv. ring.
Qed.

(** C4 fails on the code: on a canvas of 400 by 300 pixels the control point
    (1/2, 1/2) sits at pixel (174, 109) of the plot; a press 4 pixels to
    its left at (170, 109) grabs it with offset (4, 0); the move event with
    the pointer still at that place puts the point at pixel (166, 109), so
    the point has jumped by twice the grab offset. *)
Theorem drag_mirrors_grabbed_point :
  let w := widget_of 400 300 [mid_point_curve] in
  exists w1 w2 offset p',
    (fst (point_px w (1 # 2, 1 # 2)%Q) == 174)%Q /\
    (snd (point_px w (1 # 2, 1 # 2)%Q) == 109)%Q /\
    mousePressEvent linear_get_value (170 + _legend_border) (109 + _bar_h) w = Return w1 /\
    _selected_point w1 = Some (0, 0)%nat /\
    _drag_point w1 = Some (0%nat, 0%nat, offset) /\
    (fst offset == 4)%Q /\ (snd offset == 0)%Q /\
    mouseMoveEvent (170 + _legend_border) (109 + _bar_h) w1 = Return w2 /\
    get_cv_points (heap w2 0%nat) = [p'] /\
    (fst (point_px w2 p') == 166)%Q /\
    (snd (point_px w2 p') == 109)%Q.
Proof.
  eexists. eexists. eexists. eexists.
  split; [reflexivity|]. split; [reflexivity|].
  split; [vm_compute; reflexivity|].
  split; [reflexivity|]. split; [reflexivity|].
  split; [reflexivity|]. split; [reflexivity|].
  split; [vm_compute; reflexivity|].
  split; [reflexivity|]. split; reflexivity.
Qed.

(** ** Drawing *)

Lemma foldM_total {A B} (f : A -> B -> result A) (l : list B) :
  (forall a b, b ∈ l -> exists a', f a b = Return a') ->
  forall a, exists a', foldM f a l = Return a'.
Proof.
  induction l as [|b l IH]; intros Hf a; [by exists a|].
  destruct (Hf a b) as [a1 Ha1]; [by left|].
  destruct (IH (fun a b Hb => Hf a b (list_elem_of_further _ _ _ Hb)) a1) as [a' Ha'].
  exists a'. by rewrite foldM_cons, Ha1, bind_Return.
Qed.

(** A loop whose every iteration appends painter calls and returns. *)
Lemma foldM_paint {B} (f : list PaintCmd -> B -> result (list PaintCmd))
    (g : B -> list PaintCmd) (l : list B) :
  (forall painter b, b ∈ l -> f painter b = Return (painter ++ g b)) ->
  forall painter, foldM f painter l = Return (painter ++ concat (g <$> l)).
Proof.
  induction l as [|b l IH]; intros Hf painter.
  - simpl. by rewrite app_nil_r.
  - rewrite foldM_cons, Hf, bind_Return by left.
    rewrite IH by (intros; apply Hf; by right).
    rewrite fmap_cons. simpl. by rewrite app_assoc.
Qed.

(** A loop that raises in its first iteration. *)
Lemma foldM_raise {A B} (f : A -> B -> result A) (a : A) (b : B) (l : list B) (e : PyError) :
  f a b = Raise e -> foldM f a (b :: l) = Raise e.
Proof. intros Hf. by rewrite foldM_cons, Hf. Qed.

Lemma py_int_nonneg v : (0 <= v)%Q -> py_int v = Qfloor v.
Proof.
  destruct v as [n d]. unfold Qle, py_int, Qfloor. simpl. intros Hn.
  apply Z.quot_div_nonneg; lia.
Qed.

Lemma py_int_nonpos v : (v <= 0)%Q -> py_int v = Qceiling v.
Proof.
  destruct v as [n d]. unfold Qle, py_int, Qceiling, Qfloor, Qopp. simpl. intros Hn.
  rewrite <- (Z.opp_involutive n) at 1.
  rewrite Z.quot_opp_l by done. f_equal.
  apply Z.quot_div_nonneg; lia.
Qed.

Lemma bar_channel_bounds v : 0 <= bar_channel v <= 255.
Proof. unfold bar_channel. lia. Qed.

Lemma bar_channel_one v : (v == 1)%Q -> bar_channel v = 255.
Proof.
  intros Hv. unfold bar_channel.
  rewrite py_int_nonneg by (rewrite Hv; discriminate).
  assert (Heq : (v * 255 == inject_Z 255)%Q) by (rewrite Hv; reflexivity).
  by rewrite (Qfloor_comp _ _ Heq), Qfloor_Z.
Qed.

Lemma bar_channel_zero v : (v == 0)%Q -> bar_channel v = 0.
Proof.
  intros Hv. unfold bar_channel.
  rewrite py_int_nonneg by (rewrite Hv; discriminate).
  assert (Heq : (v * 255 == inject_Z 0)%Q) by (rewrite Hv; reflexivity).
  by rewrite (Qfloor_comp _ _ Heq), Qfloor_Z.
Qed.

Lemma horizontal_lines_count h :
  h <> 0 -> Qceiling (inject_Z h / (inject_Z h / 20)) = 20.
Proof.
  intros Hh.
  assert (Hnz : ~ (inject_Z h == 0)%Q) by (by rewrite inject_Z_eq0).
  assert (Heq : (inject_Z h / (inject_Z h / 20) == inject_Z 20)%Q) by (by field).
  by rewrite (Qceiling_comp _ _ Heq), Qceiling_Z.
Qed.

Section Drawing.

Variable get_value : Curve -> Q -> Q.

Lemma inject_Z_minus1_eq0 z : (inject_Z z - 1 == 0)%Q <-> z = 1.
Proof. unfold Qeq. simpl. lia. Qed.

Lemma draw_curve_total w painter ic :
  plot_width w <> 1 ->
  exists out, draw_curve get_value w (plot_width w) (plot_height w) painter ic = Return out.
Proof.
  intros Hw. destruct ic as [index curve]. unfold draw_curve.
  destruct (foldM_total (draw_curve_column get_value w curve (plot_width w))
              (py_range (plot_width w))) with (a := (0%Q, paint (SetPen (get_color (heap w curve))) painter))
    as [[last_value painter1] Hcols].
  { intros [last_value p] i _. unfold draw_curve_column.
    rewrite py_div_ok by (by rewrite inject_Z_minus1_eq0). by eexists. }
  rewrite Hcols, bind_Return.
  apply foldM_total. intros p [cv_index [x y]] _. by eexists.
Qed.

(** With a plot of a height other than 0 and a width other than 1, [_draw]
    reaches the preview bar. *)
Lemma _draw_reaches_bar w painter :
  plot_height w <> 0 -> plot_width w <> 1 ->
  exists painter1,
    _draw get_value w painter
    = draw_preview_bar get_value w (plot_width w) (plot_height w) painter1.
Proof.
  intros Hh Hw. unfold _draw. cbv zeta.
  fold (plot_width w) (plot_height w).
  rewrite py_div_ok.
  2: { intros Hz. apply Hh. apply inject_Z_eq0.
       rewrite <- (Qmult_div_r (inject_Z (plot_height w)) (20 # 1)) by discriminate.
       rewrite Hz. reflexivity. }
  rewrite bind_Return, horizontal_lines_count by done.
  match goal with |- context [foldM (draw_vertical_line ?u ?v) ?p ?l] =>
    destruct (foldM_total (draw_vertical_line u v) l) with (a := p) as [p1 ->];
      [intros; by eexists|] end.
  rewrite bind_Return.
  match goal with |- context [foldM (draw_horizontal_line ?u ?v ?c) ?p ?l] =>
    destruct (foldM_total (draw_horizontal_line u v c) l) with (a := p) as [p2 ->];
      [intros; by eexists|] end.
  rewrite bind_Return.
  match goal with |- context [foldM (draw_vertical_label ?u ?v ?c ?d) ?p ?l] =>
    destruct (foldM_total (draw_vertical_label u v c d) l) with (a := p) as [p3 ->] end.
  { intros p i _. unfold draw_vertical_label.
    rewrite py_div_ok by (by rewrite inject_Z_eq0). by eexists. }
  rewrite bind_Return.
  match goal with |- context [foldM (draw_horizontal_label ?u ?v ?c) ?p ?l] =>
    destruct (foldM_total (draw_horizontal_label u v c) l) with (a := p) as [p4 ->];
      [intros; by eexists|] end.
  rewrite bind_Return.
  destruct (foldM_total (draw_curve get_value w (plot_width w) (plot_height w))
              (enumerate (_curves w))) with (a := p4) as [p5 ->].
  { intros p ic _. by apply draw_curve_total. }
  rewrite bind_Return. by eexists.
Qed.

Lemma draw_bar_column_rgb w painter c0 c1 c2 i :
  i ∈ py_range (plot_width w - 1) ->
  draw_bar_column get_value w (CurveSlice [c0; c1; c2]) (plot_width w) painter i
  = Return (painter ++ bar_column_cmds (bar_rgb get_value w c0 c1 c2 i) i).
Proof.
  intros Hi. apply elem_of_seqZ in Hi.
  unfold draw_bar_column.
  rewrite py_div_ok by (rewrite inject_Z_eq0; lia).
  cbn [mbind result_bind py_index lookup list_lookup].
  unfold paint, bar_column_cmds, bar_rgb. by rewrite <- app_assoc.
Qed.

Lemma draw_bar_column_gray w painter c i :
  i ∈ py_range (plot_width w - 1) ->
  exists out, draw_bar_column get_value w (OneCurve c) (plot_width w) painter i = Return out.
Proof.
  intros Hi. apply elem_of_seqZ in Hi.
  unfold draw_bar_column.
  rewrite py_div_ok by (rewrite inject_Z_eq0; lia).
  by eexists.
Qed.

(** C9: with three or more curves displayed, [_draw] paints the preview bar
    from the first three curves as red, green and blue: the pen of column
    [i] has, per channel, the sample of that curve at [i / canvas_width]
    times 255, truncated to an integer and clamped to [0,255].  Samples
    1, 0 and 0 at a column give pure red. *)
Theorem preview_bar_rgb w painter c0 c1 c2 rest :
  _curves w = c0 :: c1 :: c2 :: rest ->
  plot_height w <> 0 -> plot_width w <> 1 ->
  (exists before after,
     _draw get_value w painter
     = Return (before
               ++ concat ((fun i => bar_column_cmds (bar_rgb get_value w c0 c1 c2 i) i)
                            <$> py_range (plot_width w - 1))
               ++ after)) /\
  (forall i,
     let relv := (inject_Z i / inject_Z (plot_width w))%Q in
     let sample c := get_value (heap w c) relv in
     bar_rgb get_value w c0 c1 c2 i
     = (Z.max 0 (Z.min 255 (py_int (sample c0 * 255))),
        Z.max 0 (Z.min 255 (py_int (sample c1 * 255))),
        Z.max 0 (Z.min 255 (py_int (sample c2 * 255)))) /\
     ((sample c0 == 1)%Q -> (sample c1 == 0)%Q -> (sample c2 == 0)%Q ->
      bar_rgb get_value w c0 c1 c2 i = (255, 0, 0))).
Proof.
  intros Hcurves Hh Hw. split.
  - destruct (_draw_reaches_bar w painter Hh Hw) as [p1 ->].
    unfold draw_preview_bar. rewrite Hcurves.
    cbn [length take]. rewrite decide_False by done. rewrite decide_False by done.
    rewrite bind_Return.
    rewrite (foldM_paint _
               (fun i => bar_column_cmds (bar_rgb get_value w c0 c1 c2 i) i))
      by (intros; by apply draw_bar_column_rgb).
    rewrite bind_Return. unfold paint.
    eexists p1, _. rewrite <- !app_assoc. reflexivity.
  - intros i relv sample. split; [done|].
    intros H0 H1 H2. unfold bar_rgb. fold relv. fold (sample c0) (sample c1) (sample c2).
    by rewrite (bar_channel_one _ H0), (bar_channel_zero _ H1), (bar_channel_zero _ H2).
Qed.

(** C10: drawing with exactly two curves is not total.  On a plot with a
    height and at least two pixel columns, [_draw] with two curves raises
    [IndexError]: the slice of the first three curves has length two and the
    blue channel indexes its element 2.  With any other number of curves
    (none, one, three or more) [_draw] returns. *)
Theorem draw_two_curves_raises w painter :
  plot_height w <> 0 -> 2 <= plot_width w ->
  (length (_curves w) = 2%nat -> _draw get_value w painter = Raise IndexError) /\
  (length (_curves w) <> 2%nat -> exists out, _draw get_value w painter = Return out).
Proof.
  intros Hh Hw.
  destruct (_draw_reaches_bar w painter Hh) as [p1 ->]; [lia|].
  unfold draw_preview_bar.
  destruct (_curves w) as [|c0 [|c1 [|c2 rest]]] eqn:Hcurves; cbn [length take].
  - split; [done|]. intros _. rewrite decide_True by done. by eexists.
  - split; [done|]. intros _.
    rewrite decide_False by done. rewrite decide_True by done.
    cbn [mbind result_bind py_index lookup list_lookup].
    destruct (foldM_total (draw_bar_column get_value w (OneCurve c0) (plot_width w))
                (py_range (plot_width w - 1))) with (a := p1) as [p2 ->].
    { intros p i Hi. by apply draw_bar_column_gray. }
    by eexists.
  - split; [|done]. intros _.
    rewrite decide_False by done. rewrite decide_False by done.
    rewrite bind_Return.
    unfold py_range. rewrite seqZ_cons by lia.
    rewrite (foldM_raise _ _ _ _ IndexError); [done|].
    unfold draw_bar_column.
    rewrite py_div_ok by (rewrite inject_Z_eq0; lia).
    done.
  - split; [done|]. intros _.
    rewrite decide_False by done. rewrite decide_False by done.
    rewrite bind_Return.
    rewrite (foldM_paint _
               (fun i => bar_column_cmds (bar_rgb get_value w c0 c1 c2 i) i))
      by (intros; by apply draw_bar_column_rgb).
    by eexists.
Qed.

End Drawing.

Lemma preview_bar_rgb_witness :
  let w := widget_of 400 300 [top_curve; bottom_curve; bottom_curve] in
  bar_rgb linear_get_value w 0%nat 1%nat 2%nat 100 = (255, 0, 0) /\
  exists before after,
    paintEvent linear_get_value w
    = Return (before
              ++ concat ((fun i =>
                            bar_column_cmds (bar_rgb linear_get_value w 0%nat 1%nat 2%nat i) i)
                           <$> py_range (plot_width w - 1))
              ++ after).
Proof.
  intros w.
  destruct (preview_bar_rgb linear_get_value w [] 0%nat 1%nat 2%nat [])
    as [Hdraw Hrgb].
  - reflexivity.
  - discriminate.
  - discriminate.
  - split; [|exact Hdraw].
    apply (proj2 (Hrgb 100)); reflexivity.
Defined.

Lemma draw_two_curves_raises_witness :
  paintEvent linear_get_value (widget_of 400 300 [mid_point_curve; left_point_curve])
    = Raise IndexError /\
  (exists out, paintEvent linear_get_value (widget_of 400 300 []) = Return out) /\
  (exists out, paintEvent linear_get_value (widget_of 400 300 [mid_point_curve]) = Return out) /\
  (exists out,
     paintEvent linear_get_value
       (widget_of 400 300 [top_curve; bottom_curve; bottom_curve]) = Return out).
Proof.
  split; [|split; [|split]].
  - apply (draw_two_curves_raises linear_get_value
             (widget_of 400 300 [mid_point_curve; left_point_curve]) []);
      [discriminate | vm_compute; discriminate | reflexivity].
  - apply (draw_two_curves_raises linear_get_value (widget_of 400 300 []) []);
      [discriminate | vm_compute; discriminate | discriminate].
  - apply (draw_two_curves_raises linear_get_value
             (widget_of 400 300 [mid_point_curve]) []);
      [discriminate | vm_compute; discriminate | discriminate].
  - apply (draw_two_curves_raises linear_get_value
             (widget_of 400 300 [top_curve; bottom_curve; bottom_curve]) []);
      [discriminate | vm_compute; discriminate | discriminate].
Defined.

(** ** The coordinate mapping *)

(** The pixel column of a normalized value lies on the plot, whatever the
    value: values below 0 map to the left edge and values above 1 to the
    right edge. *)
Theorem x_value_range w v :
  0 <= plot_width w ->
  (0 <= _get_x_value_for w v <= inject_Z (plot_width w))%Q /\
  ((v <= 0)%Q -> (_get_x_value_for w v == 0)%Q) /\
  ((1 <= v)%Q -> (_get_x_value_for w v == inject_Z (plot_width w))%Q).
Proof.
  intros Hw. unfold _get_x_value_for. fold (plot_width w).
  assert (HW : (0 <= inject_Z (plot_width w))%Q) by (unfold Qle; simpl; lia).
  destruct (clamp_bounds v) as [H0 H1].
  set (c := Qmax 0 (Qmin 1 v)) in *.
  split; [split|split].
  - by apply Qmult_le_0_compat.
  - rewrite <- (Qmult_1_l (inject_Z (plot_width w))) at 2.
    by apply Qmult_le_compat_r.
  - intros Hv. unfold c. rewrite (clamp_low v Hv). apply Qmult_0_l.
  - intros Hv. unfold c. rewrite (clamp_high v Hv). apply Qmult_1_l.
Qed.

Lemma x_value_range_witness :
  (0 <= _get_x_value_for (widget_of 400 300 []) (3 # 2) <= inject_Z 348)%Q /\
  (_get_x_value_for (widget_of 400 300 []) (3 # 2) == inject_Z 348)%Q.
Proof.
  destruct (x_value_range (widget_of 400 300 []) (3 # 2)) as (Hr & _ & Hhigh).
  - vm_compute. discriminate.
  - split; [exact Hr|]. apply Hhigh. vm_compute. discriminate.
Defined.

(** The pixel row of a normalized value lies between the top of the plot
    (at [_bar_h]) and its bottom; the axis is inverted: values of 1 and above
    map to the top, values of 0 and below to the bottom. *)
Theorem y_value_range w v :
  0 <= plot_height w ->
  (inject_Z _bar_h <= _get_y_value_for w v <= inject_Z (_bar_h + plot_height w))%Q /\
  ((1 <= v)%Q -> (_get_y_value_for w v == inject_Z _bar_h)%Q) /\
  ((v <= 0)%Q -> (_get_y_value_for w v == inject_Z (_bar_h + plot_height w))%Q).
Proof.
  intros Hh. unfold _get_y_value_for. fold (plot_height w).
  assert (HH : (0 <= inject_Z (plot_height w))%Q) by (unfold Qle; simpl; lia).
  destruct (clamp_bounds (1 - v)) as [H0 H1].
  rewrite inject_Z_plus.
  set (c := Qmax 0 (Qmin 1 (1 - v))) in *.
  set (H := inject_Z (plot_height w)) in *.
  set (b := inject_Z _bar_h).
  assert (Hc0 : (0 <= c * H)%Q) by (by apply Qmult_le_0_compat).
  assert (Hc1 : (c * H <= H)%Q).
  { rewrite <- (Qmult_1_l H) at 2. by apply Qmult_le_compat_r. }
  split; [split; lra|split].
  - intros Hv. unfold c. rewrite clamp_low by lra. lra.
  - intros Hv. unfold c. rewrite clamp_high by lra. lra.
Qed.

Lemma y_value_range_witness :
  (inject_Z 30 <= _get_y_value_for (widget_of 400 300 []) (3 # 2) <= inject_Z (30 + 218))%Q /\
  (_get_y_value_for (widget_of 400 300 []) (3 # 2) == inject_Z 30)%Q.
Proof.
  destruct (y_value_range (widget_of 400 300 []) (3 # 2)) as (Hr & Htop & _).
  - vm_compute. discriminate.
  - split; [exact Hr|]. apply Htop. vm_compute. discriminate.
Defined.

(** ** Dragging and the coordinate mapping *)

Lemma clamp_compat a b :
  (a == b)%Q -> (Qmax 0 (Qmin 1 a) == Qmax 0 (Qmin 1 b))%Q.
Proof.
  intros Hab. apply Q.max_compat; [reflexivity|].
  by apply Q.min_compat.
Qed.

Lemma unit_div t n :
  0 < n -> (0 <= t <= inject_Z n)%Q -> (0 <= t / inject_Z n <= 1)%Q.
Proof.
  intros Hn [H0 H1].
  assert (HN : (0 < inject_Z n)%Q) by (unfold Qlt; simpl; lia).
  split.
  - apply Qle_shift_div_l; [done|]. by rewrite Qmult_0_l.
  - apply Qle_shift_div_r; [done|]. by rewrite Qmult_1_l.
Qed.

Lemma clamp_div_mult t n :
  0 < n -> (0 <= t <= inject_Z n)%Q ->
  (Qmax 0 (Qmin 1 (t / inject_Z n)) * inject_Z n == t)%Q.
Proof.
  intros Hn Ht.
  assert (HN : (0 < inject_Z n)%Q) by (unfold Qlt; simpl; lia).
  rewrite clamp_id by (by apply unit_div).
  field. intros Hz. rewrite Hz in HN. by apply Qlt_irrefl in HN.
Qed.

(** A move during a drag puts the dragged control point at the pixel
    "pointer minus grab offset" whenever that pixel lies on the plot: the
    mapping from pixels to normalized coordinates of the move handler is
    inverse to the mapping of [_get_x_value_for] and [_get_y_value_for]. *)
Theorem drag_puts_point_at_target pos_x pos_y w ci pi ox oy r :
  let target_x := (inject_Z pos_x - ox - inject_Z _legend_border)%Q in
  let target_y := (inject_Z pos_y - oy - inject_Z _bar_h)%Q in
  _drag_point w = Some (ci, pi, (ox, oy)) ->
  _curves w !! ci = Some r ->
  (pi < length (get_cv_points (heap w r)))%nat ->
  0 < plot_width w -> 0 < plot_height w ->
  (0 <= target_x <= inject_Z (plot_width w))%Q ->
  (0 <= target_y <= inject_Z (plot_height w))%Q ->
  exists w' p,
    mouseMoveEvent pos_x pos_y w = Return w' /\
    get_cv_points (heap w' r) !! pi = Some p /\
    (fst (point_px w' p) == target_x)%Q /\
    (snd (point_px w' p) == target_y)%Q.
Proof.
  intros target_x target_y Hdrag Hr Hpi Hw Hh Hx Hy.
  rewrite (mouseMoveEvent_drag pos_x pos_y w ci pi ox oy r Hdrag Hr).
  rewrite decide_False by lia. rewrite decide_False by lia.
  rewrite decide_True by done.
  destruct (dragged_fields w r pi (drag_local_x w pos_x ox) (drag_local_y w pos_y oy))
    as (Hpts & _).
  eexists _, _. split; [done|]. rewrite Hpts.
  split; [by apply list_lookup_insert_eq|].
  unfold point_px, _get_x_value_for, _get_y_value_for. cbn [fst snd].
  change (width (dragged _ _ _ _ _)) with (width w).
  change (height (dragged _ _ _ _ _)) with (height w).
  fold (plot_width w) (plot_height w).
  unfold drag_local_x, drag_local_y.
  fold target_x target_y. fold (plot_width w) (plot_height w).
  assert (HW : (0 < inject_Z (plot_width w))%Q) by (unfold Qlt; simpl; lia).
  assert (HH : (0 < inject_Z (plot_height w))%Q) by (unfold Qlt; simpl; lia).
  split.
  - rewrite (clamp_compat _ (target_x / inject_Z (plot_width w)))
      by (apply clamp_id; by apply unit_div).
    by apply clamp_div_mult.
  - rewrite (clamp_compat _ (target_y / inject_Z (plot_height w))).
    + rewrite clamp_div_mult by done. ring.
    + rewrite (clamp_id (target_y / inject_Z (plot_height w))) by (by apply unit_div).
      ring.
Qed.

Lemma drag_puts_point_at_target_witness :
  exists w' p,
    mouseMoveEvent 100 200
      (set__drag_point (Some (0%nat, 0%nat, (0, 0)%Q)) (widget_of 400 300 [mid_point_curve]))
      = Return w' /\
    get_cv_points (heap w' 0%nat) !! 0%nat = Some p /\
    (fst (point_px w' p) == inject_Z 100 - 0 - inject_Z _legend_border)%Q /\
    (snd (point_px w' p) == inject_Z 200 - 0 - inject_Z _bar_h)%Q.
Proof.
  apply (drag_puts_point_at_target 100 200
           (set__drag_point (Some (0%nat, 0%nat, (0, 0)%Q))
              (widget_of 400 300 [mid_point_curve]))
           0%nat 0%nat 0%Q 0%Q 0%nat).
  - reflexivity.
  - reflexivity.
  - simpl. lia.
  - reflexivity.
  - reflexivity.
  - vm_compute. split; discriminate.
  - vm_compute. split; discriminate.
Defined.

(** ** Selection and drag target stay valid *)

Lemma selection_consistent_data w w' :
  heap w' = heap w -> _curves w' = _curves w ->
  _selected_point w' = _selected_point w -> _drag_point w' = _drag_point w ->
  selection_consistent w -> selection_consistent w'.
Proof.
  intros Hh Hc Hs Hd [Hsel Hdrag].
  split.
  - intros ci pi Hsel'. rewrite Hs in Hsel'.
    destruct (Hsel ci pi Hsel') as (r & Hr & Hlt).
    exists r. by rewrite Hh, Hc.
  - intros ci pi offset Hdrag'. rewrite Hd in Hdrag'. rewrite Hs. by apply Hdrag.
Qed.

Lemma press_cv_points_consistent mouse_x mouse_y index curve cvs w :
  _curves w !! index = Some curve ->
  Forall (fun cv => (fst cv < length (get_cv_points (heap w curve)))%nat) cvs ->
  selection_consistent w ->
  selection_consistent (foldl (press_cv_point mouse_x mouse_y index) w cvs).
Proof.
  intros Hcurve Hcvs. revert w Hcurve Hcvs.
  induction cvs as [|[j p] cvs IH]; intros w Hcurve Hcvs Hw; [done|].
  rewrite foldl_cons. inversion Hcvs as [|? ? Hj Hrest]; subst.
  rewrite press_cv_point_unfold.
  destruct (cv_hit w mouse_x mouse_y p) eqn:Hp; [|by apply IH].
  apply IH; [done | done |].
  apply cv_hit_square in Hp as [Hx Hy].
  split.
  - intros ci pi [= <- <-]. by exists curve.
  - intros ci pi offset [= <- <- <-]. by split.
Qed.

Section Consistency.

Variable get_value : Curve -> Q -> Q.

Lemma press_curve_consistent mouse_x mouse_y w index curve w' :
  _curves w !! index = Some curve ->
  selection_consistent w ->
  press_curve get_value mouse_x mouse_y w (index, curve) = Return w' ->
  selection_consistent w'.
Proof.
  intros Hcurve Hw Hrun.
  destruct (press_curve_cases get_value mouse_x mouse_y w index curve)
    as [[Hstep _]|[Hstep _]]; rewrite Hstep in Hrun; injection Hrun as <-.
  - apply press_cv_points_consistent with (curve := curve); [done| |done].
    apply Forall_forall. intros [j p] Hin. simpl.
    apply elem_of_enumerate in Hin. by apply lookup_lt_Some in Hin.
  - split.
    + intros ci pi [= <- <-]. exists curve. split; [done|].
      simpl. unfold store_curve. rewrite decide_True by done. simpl.
      rewrite length_app. simpl. lia.
    + intros ci pi offset [= <- <- <-]. by split.
Qed.

Lemma press_loop_consistent mouse_x mouse_y ics w w' :
  Forall (fun ic => _curves w !! fst ic = Some (snd ic)) ics ->
  selection_consistent w ->
  press_loop get_value mouse_x mouse_y w ics = Return w' ->
  selection_consistent w'.
Proof.
  unfold press_loop. revert w.
  induction ics as [|[index curve] ics IH]; intros w Hics Hw Hrun.
  - simpl in Hrun. by injection Hrun as <-.
  - inversion Hics as [|? ? Hic Hrest]; subst. simpl in Hic.
    rewrite foldM_cons in Hrun.
    destruct (press_curve_total get_value mouse_x mouse_y w (index, curve))
      as (w2 & Hw2 & _ & _ & Hc & _).
    rewrite Hw2, bind_Return in Hrun.
    apply (IH w2); [|by eapply press_curve_consistent|done].
    eapply Forall_impl; [exact Hrest|]. intros ic Hlook. simpl. by rewrite Hc.
Qed.

(** Whatever the state before, a press returns, and after it the selection
    (if any) refers to an existing control point of a displayed curve, the
    drag target is that same point, and the grab offset is less than 9
    pixels on each axis. *)
Theorem press_selection_consistent pos_x pos_y w :
  exists w', mousePressEvent get_value pos_x pos_y w = Return w' /\
             selection_consistent w'.
Proof.
  rewrite mousePressEvent_unfold.
  destruct (press_loop_total get_value (pos_x - _legend_border) (pos_y - _bar_h)
              (enumerate (_curves w)) (press_start w)) as (w2 & Hrun & _).
  rewrite Hrun, bind_Return. exists (update w2). split; [done|].
  apply (selection_consistent_data w2); [done..|].
  eapply press_loop_consistent; [| |exact Hrun].
  - apply Forall_forall. intros [i r] Hin. simpl. by apply elem_of_enumerate.
  - split; [intros ci pi Hsel | intros ci pi offset Hdrag]; discriminate.
Qed.

End Consistency.

(** Move, release, key press, [set_curves] and [set_current_time] keep the
    selection and the drag target valid. *)
Theorem handlers_keep_selection_consistent w :
  selection_consistent w ->
  (forall pos_x pos_y w',
     mouseMoveEvent pos_x pos_y w = Return w' -> selection_consistent w') /\
  selection_consistent (mouseReleaseEvent w) /\
  (forall is_delete w',
     keyPressEvent is_delete w = Return w' -> selection_consistent w') /\
  (forall curves, selection_consistent (set_curves curves w)) /\
  (forall local_time, selection_consistent (set_current_time local_time w)).
Proof.
  intros Hw. split; [|split; [|split; [|split]]].
  - intros pos_x pos_y w' Hrun.
    destruct (_drag_point w) as [[[ci pi] [ox oy]]|] eqn:Hdrag.
    2: { rewrite mouseMoveEvent_idle in Hrun by (by right). by injection Hrun as <-. }
    destruct Hw as [Hsel Hdr].
    destruct (Hdr ci pi (ox, oy) Hdrag) as (Hs & Hox & Hoy).
    destruct (Hsel ci pi Hs) as (r & Hr & Hpi).
    rewrite (mouseMoveEvent_drag pos_x pos_y w ci pi ox oy r Hdrag Hr) in Hrun.
    destruct (decide (plot_width w = 0)); [done|].
    destruct (decide (plot_height w = 0)); [done|].
    rewrite decide_True in Hrun by done. injection Hrun as <-.
    destruct (dragged_fields w r pi (drag_local_x w pos_x ox) (drag_local_y w pos_y oy))
      as (Hpts & Hframe & Hc & Hs' & Hd' & _).
    split.
    + intros ci' pi' Hsel'. rewrite Hs' in Hsel'.
      destruct (Hsel ci' pi' Hsel') as (r' & Hr' & Hlt).
      exists r'. rewrite Hc. split; [done|].
      destruct (decide (r' = r)) as [->|Hne].
      * by rewrite Hpts, length_insert.
      * by rewrite Hframe.
    + intros ci' pi' offset Hdrag'. rewrite Hd' in Hdrag'. rewrite Hs'.
      by apply Hdr.
  - destruct Hw as [Hsel Hdr]. split; [exact Hsel|]. intros ci pi offset Hd. discriminate.
  - intros is_delete w' Hrun. destruct is_delete; simpl in Hrun.
    2: { by injection Hrun as <-. }
    destruct (_selected_point w) as [[ci pi]|] eqn:Hsel.
    2: { unfold delete_current_point in Hrun. rewrite Hsel in Hrun.
         by injection Hrun as <-. }
    destruct Hw as [Hvalid _]. destruct (Hvalid ci pi Hsel) as (r & Hr & Hpi).
    rewrite (delete_current_point_selected w ci pi r Hsel Hr), decide_True in Hrun by done.
    injection Hrun as <-.
    split; [intros ci' pi' Hs | intros ci' pi' offset Hd]; discriminate.
  - intros curves.
    split; [intros ci' pi' Hs | intros ci' pi' offset Hd]; discriminate.
  - intros local_time.
    by apply (selection_consistent_data w).
Qed.

(** With a valid selection and drag target, the delete key never raises,
    and the only exception a move can raise is [ZeroDivisionError]: the
    lookups of the dragged curve and of the dragged point cannot fail. *)
Theorem no_index_fault w :
  selection_consistent w ->
  (forall is_delete, exists w', keyPressEvent is_delete w = Return w') /\
  (forall pos_x pos_y e,
     mouseMoveEvent pos_x pos_y w = Raise e -> e = ZeroDivisionError).
Proof.
  intros Hw. split.
  - intros [|]; [|by eexists]. simpl.
    destruct (_selected_point w) as [[ci pi]|] eqn:Hs.
    + destruct Hw as [Hsel _]. destruct (Hsel ci pi Hs) as (r & Hr & Hpi).
      rewrite (delete_current_point_selected w ci pi r Hs Hr), decide_True by done.
      by eexists.
    + unfold delete_current_point. rewrite Hs. by eexists.
  - intros pos_x pos_y e Hrun.
    destruct (_drag_point w) as [[[ci pi] [ox oy]]|] eqn:Hdrag.
    2: { by rewrite mouseMoveEvent_idle in Hrun by (by right). }
    destruct Hw as [Hsel Hdr].
    destruct (Hdr ci pi (ox, oy) Hdrag) as (Hs & _).
    destruct (Hsel ci pi Hs) as (r & Hr & Hpi).
    rewrite (mouseMoveEvent_drag pos_x pos_y w ci pi ox oy r Hdrag Hr) in Hrun.
    destruct (decide (plot_width w = 0)); [congruence|].
    destruct (decide (plot_height w = 0)); [congruence|].
    by rewrite decide_True in Hrun.
Qed.

Lemma selected_widget_consistent :
  selection_consistent
    (set__drag_point (Some (0%nat, 0%nat, (4, 0)%Q))
       (set__selected_point (Some (0, 0)%nat) (widget_of 400 300 [mid_point_curve]))).
Proof.
  split.
  - intros ci pi [= <- <-]. exists 0%nat. split; [reflexivity | simpl; lia].
  - intros ci pi offset [= <- <- <-]. split; [reflexivity|]. split; reflexivity.
Defined.

Lemma handlers_keep_selection_consistent_witness :
  selection_consistent
    (mouseReleaseEvent
       (set__drag_point (Some (0%nat, 0%nat, (4, 0)%Q))
          (set__selected_point (Some (0, 0)%nat) (widget_of 400 300 [mid_point_curve])))).
Proof.
  apply (proj1 (proj2 (handlers_keep_selection_consistent _ selected_widget_consistent))).
Defined.

Lemma no_index_fault_witness :
  exists w',
    keyPressEvent true
      (set__drag_point (Some (0%nat, 0%nat, (4, 0)%Q))
         (set__selected_point (Some (0, 0)%nat) (widget_of 400 300 [mid_point_curve])))
    = Return w'.
Proof.
  apply (proj1 (no_index_fault _ selected_widget_consistent) true).
Defined.

(** ** When a press edits *)

Lemma press_cv_points_none_miss mouse_x mouse_y index cvs w :
  _selected_point (foldl (press_cv_point mouse_x mouse_y index) w cvs) = None ->
  Forall (fun cv => cv_hit w mouse_x mouse_y (snd cv) = false) cvs.
Proof.
  revert w. induction cvs as [|[j p] cvs IH]; intros w Hsel; [constructor|].
  rewrite foldl_cons, press_cv_point_unfold in Hsel.
  destruct (cv_hit w mouse_x mouse_y p) eqn:Hp.
  - exfalso. revert Hsel. by apply press_cv_points_keep.
  - constructor; [done|]. by apply IH.
Qed.

Lemma Forall_enumerate_snd {A} (P : A -> Prop) (l : list A) :
  Forall (fun ia : nat * A => P (snd ia)) (enumerate l) -> forall a, a ∈ l -> P a.
Proof.
  intros Hall a Ha. apply list_elem_of_lookup in Ha as [i Hi].
  rewrite Forall_forall in Hall. apply (Hall (i, a)).
  apply list_elem_of_lookup. exists i. unfold enumerate.
  by rewrite list_lookup_imap, Hi.
Qed.

Section PressEdits.

Variable get_value : Curve -> Q -> Q.

Lemma press_loop_outside mouse_x mouse_y ics w w' :
  ~ in_click_region w mouse_x mouse_y ->
  press_loop get_value mouse_x mouse_y w ics = Return w' -> same_data w w'.
Proof.
  unfold press_loop. revert w. induction ics as [|[index curve] ics IH]; intros w Hout Hrun.
  - simpl in Hrun. injection Hrun as <-. apply same_data_refl.
  - rewrite foldM_cons in Hrun.
    destruct (press_curve_cases get_value mouse_x mouse_y w index curve)
      as [[Hstep _]|[_ (_ & _ & Hin & _)]]; [|done].
    rewrite Hstep, bind_Return in Hrun.
    pose proof (press_cv_points_data mouse_x mouse_y index
                  (enumerate (get_cv_points (heap w curve))) w) as Hd.
    eapply same_data_trans; [exact Hd|].
    apply IH; [|done].
    destruct Hd as (_ & Hwd & Hht & _).
    unfold in_click_region in *. by rewrite Hwd, Hht.
Qed.

Lemma press_loop_untouched mouse_x mouse_y ics w :
  _selected_point w = None ->
  (forall ic, ic ∈ ics -> curve_misses w mouse_x mouse_y (snd ic)) ->
  (~ in_click_region w mouse_x mouse_y \/
   forall ic, ic ∈ ics -> near_curve_body get_value w (snd ic) mouse_x mouse_y = false) ->
  press_loop get_value mouse_x mouse_y w ics = Return w.
Proof.
  unfold press_loop. intros Hsel.
  induction ics as [|[index curve] ics IH]; intros Hmiss Hfar; [done|].
  rewrite foldM_cons.
  assert (Hw1 : foldl (press_cv_point mouse_x mouse_y index) w
                  (enumerate (get_cv_points (heap w curve))) = w).
  { apply press_cv_points_miss. unfold enumerate.
    apply (Forall_imap_snd (fun p => cv_hit w mouse_x mouse_y p = false) id).
    apply Forall_forall. intros p Hp.
    apply (Hmiss (index, curve)); [left | done]. }
  destruct (press_curve_cases get_value mouse_x mouse_y w index curve)
    as [[-> _]|[_ (_ & _ & Hin & Hnear)]].
  - rewrite Hw1, bind_Return. apply IH.
    + intros ic Hic. apply Hmiss. by right.
    + destruct Hfar as [Hout|Hfar]; [by left|]. right.
      intros ic Hic. apply Hfar. by right.
  - exfalso. destruct Hfar as [Hout|Hfar]; [done|].
    specialize (Hfar (index, curve)). simpl in Hfar.
    rewrite Hfar in Hnear by left. done.
Qed.

(** The loop, entered without a selection, calls the change handler only
    for the first curve whose body is near the pointer, and only when no
    control point of that curve or of an earlier one contains the pointer. *)
Lemma press_loop_clean mouse_x mouse_y ics w w' :
  _selected_point w = None ->
  press_loop get_value mouse_x mouse_y w ics = Return w' ->
  changes w' <> changes w ->
  exists ics1 index curve ics2,
    ics = ics1 ++ (index, curve) :: ics2 /\
    in_click_region w mouse_x mouse_y /\
    near_curve_body get_value w curve mouse_x mouse_y = true /\
    curve_misses w mouse_x mouse_y curve /\
    (forall ic, ic ∈ ics1 ->
       near_curve_body get_value w (snd ic) mouse_x mouse_y = false /\
       curve_misses w mouse_x mouse_y (snd ic)).
Proof.
  unfold press_loop. intros Hsel.
  induction ics as [|[index curve] ics IH]; intros Hrun Hch.
  - simpl in Hrun. injection Hrun as <-. done.
  - rewrite foldM_cons in Hrun.
    set (w1 := foldl (press_cv_point mouse_x mouse_y index) w
                 (enumerate (get_cv_points (heap w curve)))) in *.
    assert (Hmiss1 : _selected_point w1 = None -> curve_misses w mouse_x mouse_y curve).
    { intros Hnone p Hp.
      apply (Forall_enumerate_snd (fun p => cv_hit w mouse_x mouse_y p = false)
               (get_cv_points (heap w curve))); [|done].
      by apply (press_cv_points_none_miss mouse_x mouse_y index). }
    destruct (press_curve_cases get_value mouse_x mouse_y w index curve)
      as [[Hstep Hwhy]|[Hstep (Hw1 & _ & Hin & Hnear)]];
      fold w1 in Hstep; rewrite Hstep, bind_Return in Hrun.
    + destruct (_selected_point w1) as [sel|] eqn:Hsel1.
      { exfalso.
        destruct (press_loop_selected get_value mouse_x mouse_y ics w1)
          as (w2 & Hw2 & (_ & _ & _ & _ & Hch2 & _) & _); [congruence|].
        unfold press_loop in Hw2. rewrite Hrun in Hw2. injection Hw2 as <-.
        destruct (press_cv_points_data mouse_x mouse_y index
                    (enumerate (get_cv_points (heap w curve))) w)
          as (_ & _ & _ & _ & Hch1 & _).
        fold w1 in Hch1. congruence. }
      assert (Heq : w1 = w) by (by apply press_cv_points_none).
      rewrite Heq in Hrun.
      destruct (IH Hrun Hch) as (ics1 & i & r & ics2 & -> & Hin & Hnear & Hmiss & Hpre).
      exists ((index, curve) :: ics1), i, r, ics2.
      split; [done|]. split; [done|]. split; [done|]. split; [done|].
      intros ic Hic. apply elem_of_cons in Hic as [->|Hic]; [|by apply Hpre].
      simpl. split; [|by apply Hmiss1].
      destruct Hwhy as [Hout|[Hsome|Hfar]]; done.
    + exists [], index, curve, ics.
      split; [done|]. split; [done|]. split; [done|].
      split; [|intros ic Hic; by apply elem_of_nil in Hic].
      apply Hmiss1. fold w1 in Hw1. by rewrite Hw1.
Qed.

(** A press calls the change handler only if the pointer is in the click
    region and some displayed curve has its body near the pointer while no
    control point of that curve or of the curves before it contains the
    pointer and none of the curves before it is near. *)
Theorem press_edits_only_on_curve_body pos_x pos_y w w' :
  let mouse_x := pos_x - _legend_border in
  let mouse_y := pos_y - _bar_h in
  mousePressEvent get_value pos_x pos_y w = Return w' ->
  changes w' <> changes w ->
  exists pre r post,
    _curves w = pre ++ r :: post /\
    in_click_region w mouse_x mouse_y /\
    near_curve_body get_value w r mouse_x mouse_y = true /\
    (forall r', r' ∈ pre ++ [r] -> curve_misses w mouse_x mouse_y r') /\
    (forall r', r' ∈ pre -> near_curve_body get_value w r' mouse_x mouse_y = false).
Proof.
  intros mouse_x mouse_y Hrun Hch.
  rewrite mousePressEvent_unfold in Hrun. fold mouse_x mouse_y in Hrun.
  destruct (press_loop get_value mouse_x mouse_y (press_start w) (enumerate (_curves w)))
    as [w2|e] eqn:Hloop; [|done].
  rewrite bind_Return in Hrun. injection Hrun as <-.
  destruct (press_loop_clean mouse_x mouse_y _ (press_start w) w2 eq_refl Hloop Hch)
    as (ics1 & index & r & ics2 & Hsplit & Hin & Hnear & Hmiss & Hpre).
  exists (snd <$> ics1), r, (snd <$> ics2).
  split.
  { assert (Hs : snd <$> enumerate (_curves w) = _curves w)
      by apply (snd_imap_pair id).
    rewrite <- Hs, Hsplit, fmap_app. done. }
  split; [exact Hin|]. split; [exact Hnear|]. split.
  - intros r' Hr'. apply elem_of_app in Hr' as [Hr'|Hr'].
    + apply list_elem_of_fmap in Hr' as (ic & -> & Hic).
      by apply (Hpre ic).
    + apply list_elem_of_singleton in Hr'. by subst r'.
  - intros r' Hr'. apply list_elem_of_fmap in Hr' as (ic & -> & Hic).
    by apply (Hpre ic).
Qed.

(** A press outside the click region never edits a curve and never calls
    the change handler, although it may select a control point there. *)
Theorem press_outside_region_never_edits pos_x pos_y w :
  ~ in_click_region w (pos_x - _legend_border) (pos_y - _bar_h) ->
  exists w', mousePressEvent get_value pos_x pos_y w = Return w' /\
    heap w' = heap w /\ _curves w' = _curves w /\ changes w' = changes w.
Proof.
  intros Hout. rewrite mousePressEvent_unfold.
  destruct (press_loop_total get_value (pos_x - _legend_border) (pos_y - _bar_h)
              (enumerate (_curves w)) (press_start w)) as (w2 & Hrun & _).
  rewrite Hrun, bind_Return. exists (update w2). split; [done|].
  destruct (press_loop_outside _ _ _ (press_start w) w2 Hout Hrun)
    as (Hh & _ & _ & Hc & Hch & _).
  done.
Qed.

(** A press on nothing deselects: when no control point of any displayed
    curve contains the pointer and no insertion is possible (the pointer is
    outside the click region, or no curve body is near), the press leaves
    the widget without selection and without drag target, edits nothing and
    only requests a repaint. *)
Theorem press_on_nothing_deselects pos_x pos_y w :
  let mouse_x := pos_x - _legend_border in
  let mouse_y := pos_y - _bar_h in
  (forall r, r ∈ _curves w -> curve_misses w mouse_x mouse_y r) ->
  (~ in_click_region w mouse_x mouse_y \/
   forall r, r ∈ _curves w -> near_curve_body get_value w r mouse_x mouse_y = false) ->
  mousePressEvent get_value pos_x pos_y w
  = Return (update (set__selected_point None (set__drag_point None w))).
Proof.
  intros mouse_x mouse_y Hmiss Hfar.
  rewrite mousePressEvent_unfold. fold mouse_x mouse_y.
  rewrite press_loop_untouched; [done | done | |].
  - intros [i r] Hic. apply elem_of_enumerate in Hic.
    apply (Hmiss r). by eapply list_elem_of_lookup_2.
  - destruct Hfar as [Hout|Hfar]; [by left|]. right.
    intros [i r] Hic. apply elem_of_enumerate in Hic.
    apply (Hfar r). by eapply list_elem_of_lookup_2.
Qed.

End PressEdits.

Lemma press_edits_only_on_curve_body_witness :
  exists pre r post,
    _curves (widget_of 400 300 [mid_point_curve]) = pre ++ r :: post /\
    in_click_region (widget_of 400 300 [mid_point_curve])
      (102 - _legend_border) (139 - _bar_h) /\
    near_curve_body linear_get_value (widget_of 400 300 [mid_point_curve]) r
      (102 - _legend_border) (139 - _bar_h) = true /\
    (forall r', r' ∈ pre ++ [r] ->
       curve_misses (widget_of 400 300 [mid_point_curve])
         (102 - _legend_border) (139 - _bar_h) r') /\
    (forall r', r' ∈ pre ->
       near_curve_body linear_get_value (widget_of 400 300 [mid_point_curve]) r'
         (102 - _legend_border) (139 - _bar_h) = false).
Proof.
  apply (press_edits_only_on_curve_body linear_get_value 102 139
           (widget_of 400 300 [mid_point_curve])
           (update (spawned linear_get_value
                      (press_start (widget_of 400 300 [mid_point_curve])) 0%nat 0%nat 50))).
  - reflexivity.
  - discriminate.
Defined.

Lemma press_outside_region_never_edits_witness :
  exists w',
    mousePressEvent linear_get_value 10 10 (widget_of 400 300 [mid_point_curve])
    = Return w' /\
    heap w' = heap (widget_of 400 300 [mid_point_curve]) /\
    _curves w' = [0%nat] /\ changes w' = [].
Proof.
  apply (press_outside_region_never_edits linear_get_value 10 10
           (widget_of 400 300 [mid_point_curve])).
  unfold in_click_region. simpl. unfold _legend_border. lia.
Defined.

Lemma press_on_nothing_deselects_witness :
  mousePressEvent linear_get_value 10 10
    (set__selected_point (Some (0, 0)%nat) (widget_of 400 300 [mid_point_curve]))
  = Return (update (widget_of 400 300 [mid_point_curve])).
Proof.
  apply (press_on_nothing_deselects linear_get_value 10 10
           (set__selected_point (Some (0, 0)%nat) (widget_of 400 300 [mid_point_curve]))).
  - intros r Hr p Hp. simpl in Hr. apply list_elem_of_singleton in Hr. subst r.
    simpl in Hp. apply list_elem_of_singleton in Hp. subst p. reflexivity.
  - left. unfold in_click_region. simpl. unfold _legend_border. lia.
Defined.

(** ** Pressing twice at the same place *)

Section PressTwice.

Variable get_value : Curve -> Q -> Q.

Lemma near_curve_body_frame w w' r mouse_x mouse_y :
  heap w' r = heap w r -> width w' = width w -> height w' = height w ->
  near_curve_body get_value w' r mouse_x mouse_y
  = near_curve_body get_value w r mouse_x mouse_y.
Proof.
  intros Hh Hwd Hht. unfold near_curve_body, _get_y_value_for.
  by rewrite Hh, Hwd, Hht.
Qed.

Lemma curve_misses_frame w w' r mouse_x mouse_y :
  heap w' r = heap w r -> width w' = width w -> height w' = height w ->
  curve_misses w mouse_x mouse_y r -> curve_misses w' mouse_x mouse_y r.
Proof.
  intros Hh Hwd Hht Hmiss p Hp. rewrite Hh in Hp.
  rewrite (cv_hit_frame w w') by done. by apply Hmiss.
Qed.

(** The point a press inserts lies inside its own tolerance square around
    the pointer. *)
Lemma spawned_point_hit w r mouse_x mouse_y :
  in_click_region w mouse_x mouse_y ->
  near_curve_body get_value w r mouse_x mouse_y = true ->
  cv_hit w mouse_x mouse_y (spawned_point get_value w r mouse_x) = true.
Proof.
  intros [[Hx0 Hx1] _] Hnear. apply cv_hit_square.
  unfold spawned_point, point_px. cbn [fst snd]. split.
  - unfold _get_x_value_for.
    assert (Heq : (Qmax 0 (Qmin 1 (inject_Z mouse_x / inject_Z (width w - _legend_border)))
                   * inject_Z (width w - _legend_border) - inject_Z mouse_x == 0)%Q).
    { rewrite clamp_div_mult; [ring | lia |].
      unfold Qle. simpl. lia. }
    by rewrite Heq.
  - apply Qltb_lt in Hnear. unfold near_curve_body in Hnear.
    eapply Qlt_trans; [exact Hnear | reflexivity].
Qed.

Lemma press_loop_inserts mouse_x mouse_y w pre r :
  _selected_point w = None ->
  (forall r', r' ∈ pre ++ [r] -> curve_misses w mouse_x mouse_y r') ->
  (forall r', r' ∈ pre -> near_curve_body get_value w r' mouse_x mouse_y = false) ->
  in_click_region w mouse_x mouse_y ->
  near_curve_body get_value w r mouse_x mouse_y = true ->
  press_loop get_value mouse_x mouse_y w (enumerate (pre ++ [r]))
  = Return (spawned get_value w (length pre) r mouse_x).
Proof.
  intros Hsel Hmiss Hfar Hin Hnear.
  rewrite enumerate_app, press_loop_app.
  rewrite press_loop_untouched; [|done| |].
  - rewrite bind_Return. unfold press_loop.
    rewrite imap_cons, foldM_cons, Nat.add_0_r.
    destruct (press_curve_cases get_value mouse_x mouse_y w (length pre) r)
      as [[_ Hno]|[-> _]]; [|done].
    exfalso. rewrite press_cv_points_miss in Hno.
    + destruct Hno as [Hno|[Hno|Hno]]; [done | done | congruence].
    + unfold enumerate.
      apply (Forall_imap_snd (fun p => cv_hit w mouse_x mouse_y p = false) id).
      apply Forall_forall. intros p Hp. apply (Hmiss r); [|done].
      apply elem_of_app. right. by apply list_elem_of_singleton.
  - intros [i r'] Hic. apply elem_of_enumerate in Hic. simpl.
    apply Hmiss. apply elem_of_app. left. by eapply list_elem_of_lookup_2.
  - right. intros [i r'] Hic. apply elem_of_enumerate in Hic. simpl.
    apply Hfar. by eapply list_elem_of_lookup_2.
Qed.

(** A press on the body of a curve inserts a control point; a second press
    at the same position hits that point instead of inserting another one:
    it leaves the curves as they are and does not call the change handler. *)
Theorem second_press_does_not_insert pos_x pos_y w pre r post :
  let mouse_x := pos_x - _legend_border in
  let mouse_y := pos_y - _bar_h in
  _curves w = pre ++ r :: post ->
  in_click_region w mouse_x mouse_y ->
  near_curve_body get_value w r mouse_x mouse_y = true ->
  (forall r', r' ∈ pre ++ [r] -> curve_misses w mouse_x mouse_y r') ->
  (forall r', r' ∈ pre -> near_curve_body get_value w r' mouse_x mouse_y = false) ->
  exists w1 w2,
    mousePressEvent get_value pos_x pos_y w = Return w1 /\
    get_cv_points (heap w1 r)
      = get_cv_points (heap w r) ++ [spawned_point get_value w r mouse_x] /\
    changes w1 = changes w ++ [displayed_points w1] /\
    mousePressEvent get_value pos_x pos_y w1 = Return w2 /\
    heap w2 = heap w1 /\ changes w2 = changes w1 /\
    _selected_point w2 <> None.
Proof.
  intros mouse_x mouse_y Hcurves Hin Hnear Hmiss Hfar.
  assert (Hsplit : pre ++ r :: post = (pre ++ [r]) ++ post) by (by rewrite <- app_assoc).
  (* the first press *)
  set (w0 := press_start w).
  set (s2 := spawned get_value w0 (length pre) r mouse_x).
  assert (Hfirst : press_loop get_value mouse_x mouse_y w0 (enumerate (pre ++ [r]))
                   = Return s2) by (by apply press_loop_inserts).
  destruct (press_loop_selected get_value mouse_x mouse_y
              (imap (fun i => pair (length (pre ++ [r]) + i)%nat) post) s2)
    as (s3 & Hs3 & (Hh3 & Hwd3 & Hht3 & Hc3 & Hch3 & _) & _); [done|].
  assert (Hpress1 : mousePressEvent get_value pos_x pos_y w = Return (update s3)).
  { rewrite mousePressEvent_unfold, Hcurves, Hsplit. fold mouse_x mouse_y w0.
    by rewrite enumerate_app, press_loop_app, Hfirst, bind_Return, Hs3. }
  set (w1 := update s3) in *.
  assert (Hheap1 : heap w1 = store_curve r
            (mkCurve (get_cv_points (heap w r) ++ [spawned_point get_value w r mouse_x])
                     (get_color (heap w r))) (heap w)) by exact Hh3.
  assert (Hwd1 : width w1 = width w) by exact Hwd3.
  assert (Hht1 : height w1 = height w) by exact Hht3.
  assert (Hc1 : _curves w1 = _curves w) by exact Hc3.
  assert (Hpts1 : get_cv_points (heap w1 r)
                  = get_cv_points (heap w r) ++ [spawned_point get_value w r mouse_x]).
  { rewrite Hheap1. unfold store_curve. by rewrite decide_True. }
  assert (Hother : forall r', r' ∈ pre -> heap w1 r' = heap w r').
  { intros r' Hr'. rewrite Hheap1. unfold store_curve. rewrite decide_False; [done|].
    intros ->. rewrite (Hfar r Hr') in Hnear. done. }
  (* the second press *)
  set (w0' := press_start w1).
  assert (Hpre2 : press_loop get_value mouse_x mouse_y w0' (enumerate pre) = Return w0').
  { apply press_loop_untouched; [done| |].
    - intros [i r'] Hic. apply elem_of_enumerate in Hic. simpl.
      assert (Hr' : r' ∈ pre) by (by eapply list_elem_of_lookup_2).
      apply (curve_misses_frame w); [by apply Hother | done | done |].
      apply Hmiss. apply elem_of_app. by left.
    - right. intros [i r'] Hic. apply elem_of_enumerate in Hic. simpl.
      assert (Hr' : r' ∈ pre) by (by eapply list_elem_of_lookup_2).
      rewrite (near_curve_body_frame w w0'); [by apply Hfar | by apply Hother | done | done]. }
  set (w1' := foldl (press_cv_point mouse_x mouse_y (length pre)) w0'
                (enumerate (get_cv_points (heap w0' r)))).
  assert (Hsel1' : _selected_point w1' <> None).
  { unfold w1'. change (heap w0' r) with (heap w1 r). rewrite Hpts1.
    rewrite enumerate_app, imap_cons.
    destruct (press_cv_points_last mouse_x mouse_y (length pre)
                (enumerate (get_cv_points (heap w r)))
                (length (get_cv_points (heap w r)) + 0)%nat
                (spawned_point get_value w r mouse_x) [] w0') as [Hs _].
    - rewrite (cv_hit_frame w w0') by done. by apply spawned_point_hit.
    - constructor.
    - simpl in Hs. simpl. rewrite Hs. done. }
  assert (Hstep2 : press_curve get_value mouse_x mouse_y w0' (length pre, r) = Return w1').
  { destruct (press_curve_cases get_value mouse_x mouse_y w0' (length pre) r)
      as [[Hstep _]|[_ (Heq & Hnone & _)]]; [done|].
    fold w1' in Heq. rewrite Heq in Hsel1'. done. }
  destruct (press_loop_selected get_value mouse_x mouse_y
              (imap (fun i => pair (length (pre ++ [r]) + i)%nat) post) w1' Hsel1')
    as (s4 & Hs4 & (Hh4 & _ & _ & _ & Hch4 & _) & Hsel4).
  assert (Hd1' : same_data w0' w1') by apply press_cv_points_data.
  destruct Hd1' as (Hh1' & _ & _ & _ & Hch1' & _).
  exists w1, (update s4).
  split; [exact Hpress1|]. split; [exact Hpts1|].
  split.
  { change (changes w1) with (changes s3). rewrite Hch3. simpl.
    unfold displayed_points. simpl. by rewrite Hh3, Hc3. }
  split.
  { assert (Hloop2 : press_loop get_value mouse_x mouse_y w0' (enumerate (pre ++ [r]))
                     = Return w1').
    { rewrite enumerate_app, press_loop_app, Hpre2, bind_Return.
      unfold press_loop. by rewrite imap_cons, foldM_cons, Nat.add_0_r, Hstep2. }
    rewrite mousePressEvent_unfold, Hc1, Hcurves, Hsplit. fold mouse_x mouse_y w0'.
    by rewrite enumerate_app, press_loop_app, Hloop2, bind_Return, Hs4. }
  split; [|split].
  - change (heap (update s4)) with (heap s4). by rewrite Hh4, Hh1'.
  - change (changes (update s4)) with (changes s4). by rewrite Hch4, Hch1'.
  - exact Hsel4.
Qed.

End PressTwice.

Lemma second_press_does_not_insert_witness :
  exists w1 w2,
    mousePressEvent linear_get_value 102 139 (widget_of 400 300 [mid_point_curve])
      = Return w1 /\
    get_cv_points (heap w1 0%nat)
      = [(1 # 2, 1 # 2)%Q] ++ [((50 / 348)%Q, clamp01 (1 # 2))] /\
    changes w1 = [] ++ [displayed_points w1] /\
    mousePressEvent linear_get_value 102 139 w1 = Return w2 /\
    heap w2 = heap w1 /\ changes w2 = changes w1 /\
    _selected_point w2 <> None.
Proof.
  apply (second_press_does_not_insert linear_get_value 102 139
           (widget_of 400 300 [mid_point_curve]) [] 0%nat []).
  - reflexivity.
  - unfold in_click_region. simpl. unfold _legend_border, _bar_h. lia.
  - reflexivity.
  - intros r' Hr' p Hp. simpl in Hr'. apply list_elem_of_singleton in Hr'. subst r'.
    simpl in Hp. apply list_elem_of_singleton in Hp. subst p. reflexivity.
  - intros r' Hr'. by apply elem_of_nil in Hr'.
Defined.

(** ** Markers and hit test *)

(** The marker [_draw] paints for a control point with coordinates in [0,1]
    is a square of 6 by 6 pixels, and a press anywhere on it hits the point:
    the marker lies inside the tolerance square of the hit test. *)
Theorem marker_click_hits w index painter j p pos_x pos_y out :
  (0 <= fst p <= 1)%Q -> (0 <= snd p <= 1)%Q ->
  draw_cv_point w index (plot_width w) (plot_height w) painter (j, p) = Return out ->
  exists pen rx ry,
    out = painter ++ [SetPen pen; DrawRect rx ry 6 6] /\
    ((rx <= inject_Z pos_x <= rx + 6)%Q -> (ry <= inject_Z pos_y <= ry + 6)%Q ->
     cv_hit w (pos_x - _legend_border) (pos_y - _bar_h) p = true).
Proof.
  destruct p as [x y]. cbn [fst snd]. intros Hx Hy Hrun.
  set (rx := (x * inject_Z (plot_width w) + inject_Z _legend_border
              - inject_Z _cv_point_size)%Q).
  set (ry := ((1 - y) * inject_Z (plot_height w) + inject_Z _bar_h
              - inject_Z _cv_point_size)%Q).
  assert (Hhit : (rx <= inject_Z pos_x <= rx + 6)%Q ->
                 (ry <= inject_Z pos_y <= ry + 6)%Q ->
                 cv_hit w (pos_x - _legend_border) (pos_y - _bar_h) (x, y) = true).
  { unfold rx, ry. intros Hpx Hpy. apply cv_hit_square.
    unfold point_px, _get_x_value_for, _get_y_value_for. cbn [fst snd].
    fold (plot_width w) (plot_height w).
    unfold Zminus. rewrite !inject_Z_plus, !inject_Z_opp.
    change (inject_Z _legend_border) with 52%Q in *.
    change (inject_Z _bar_h) with 30%Q in *.
    change (inject_Z _cv_point_size) with 3%Q in *.
    change (inject_Z (3 + 6)) with 9%Q.
    rewrite (clamp_id x) by done.
    rewrite (clamp_id (1 - y)) by (split; lra).
    set (X := (x * inject_Z (plot_width w))%Q) in *.
    set (Y := ((1 - y) * inject_Z (plot_height w))%Q) in *.
    split; apply Qabs_Qlt_condition; split; lra. }
  unfold draw_cv_point in Hrun. injection Hrun as <-.
  fold rx ry. unfold paint.
  match goal with |- context [if ?b then _ else _] => destruct b end;
    (eexists _, rx, ry; split; [by rewrite <- app_assoc | exact Hhit]).
Qed.

Lemma marker_click_hits_witness :
  exists pen rx ry,
    painter_after_marker = [] ++ [SetPen pen; DrawRect rx ry 6 6] /\
    ((rx <= inject_Z 228 <= rx + 6)%Q -> (ry <= inject_Z 137 <= ry + 6)%Q ->
     cv_hit (widget_of 400 300 [mid_point_curve])
       (228 - _legend_border) (137 - _bar_h) (1 # 2, 1 # 2)%Q = true).
Proof.
  apply (marker_click_hits (widget_of 400 300 [mid_point_curve]) 0%nat [] 0%nat
           (1 # 2, 1 # 2)%Q 228 137 painter_after_marker).
  - vm_compute. split; discriminate.
  - vm_compute. split; discriminate.
  - reflexivity.
Defined.

(** ** When drawing returns, and what it paints last *)

Section DrawingFaults.

Variable get_value : Curve -> Q -> Q.

Lemma draw_curve_single_column w painter ic :
  plot_width w = 1 ->
  draw_curve get_value w (plot_width w) (plot_height w) painter ic
  = Raise ZeroDivisionError.
Proof.
  intros Hw. destruct ic as [index curve]. unfold draw_curve. rewrite Hw.
  change (py_range 1) with [0].
  rewrite (foldM_raise _ _ _ _ ZeroDivisionError); [done|].
  unfold draw_curve_column. by rewrite py_div_zero.
Qed.

(** How far [_draw] gets: it raises on a plot without height and, when it
    has a curve to plot, on a plot of width 1; otherwise it paints grid,
    curves and bar background and goes on with the preview bar. *)
Lemma _draw_cases w painter :
  if decide (plot_height w = 0) then
    _draw get_value w painter = Raise ZeroDivisionError
  else if decide (plot_width w = 1 /\ _curves w <> []) then
    _draw get_value w painter = Raise ZeroDivisionError
  else
    exists before,
      _draw get_value w painter
      = draw_preview_bar get_value w (plot_width w) (plot_height w)
          (before ++ [SetBrush (255, 0, 0); SetPen (110, 110, 110);
                      DrawRect 51 9 (inject_Z (plot_width w)) 10]).
Proof.
  unfold _draw. cbv zeta. fold (plot_width w) (plot_height w).
  destruct (decide (plot_height w = 0)) as [Hh|Hh].
  { rewrite py_div_zero; [done|]. rewrite Hh. reflexivity. }
  rewrite py_div_ok.
  2: { intros Hz. apply Hh. apply inject_Z_eq0.
       rewrite <- (Qmult_div_r (inject_Z (plot_height w)) (20 # 1)) by discriminate.
       rewrite Hz. reflexivity. }
  rewrite bind_Return, horizontal_lines_count by done.
  match goal with |- context [foldM (draw_vertical_line ?u ?v) ?p ?l] =>
    destruct (foldM_total (draw_vertical_line u v) l) with (a := p) as [p1 ->];
      [intros; by eexists|] end.
  rewrite bind_Return.
  match goal with |- context [foldM (draw_horizontal_line ?u ?v ?c) ?p ?l] =>
    destruct (foldM_total (draw_horizontal_line u v c) l) with (a := p) as [p2 ->];
      [intros; by eexists|] end.
  rewrite bind_Return.
  match goal with |- context [foldM (draw_vertical_label ?u ?v ?c ?d) ?p ?l] =>
    destruct (foldM_total (draw_vertical_label u v c d) l) with (a := p) as [p3 ->] end.
  { intros p i _. unfold draw_vertical_label.
    rewrite py_div_ok by (by rewrite inject_Z_eq0). by eexists. }
  rewrite bind_Return.
  match goal with |- context [foldM (draw_horizontal_label ?u ?v ?c) ?p ?l] =>
    destruct (foldM_total (draw_horizontal_label u v c) l) with (a := p) as [p4 ->];
      [intros; by eexists|] end.
  rewrite bind_Return.
  destruct (decide (plot_width w = 1 /\ _curves w <> [])) as [[Hw Hc]|Hok].
  { destruct (_curves w) as [|c cs]; [done|].
    unfold enumerate. rewrite imap_cons.
    rewrite (foldM_raise _ _ _ _ ZeroDivisionError); [done|].
    by apply draw_curve_single_column. }
  destruct (foldM_total (draw_curve get_value w (plot_width w) (plot_height w))
              (enumerate (_curves w))) with (a := p4) as [p5 ->].
  { intros p ic Hic. apply draw_curve_total. intros Hw. apply Hok. split; [done|].
    intros Hc. rewrite Hc in Hic. by apply elem_of_nil in Hic. }
  rewrite bind_Return. exists p5. unfold paint. by rewrite <- !app_assoc.
Qed.

Lemma draw_preview_bar_returns w painter :
  (length (_curves w) = 2%nat -> plot_width w < 2) ->
  exists columns,
    draw_preview_bar get_value w (plot_width w) (plot_height w) painter
    = Return (painter ++ columns ++
              (if decide (_curves w = []) then []
               else [SetDashPen (255, 100, 100);
                     DrawLine (inject_Z _legend_border
                                 + _current_time w * inject_Z (plot_width w))
                              (inject_Z _bar_h)
                              (inject_Z _legend_border
                                 + _current_time w * inject_Z (plot_width w))
                              (inject_Z (_bar_h + plot_height w));
                     SetPen (100, 100, 100);
                     DrawText (inject_Z (_legend_border - 2)) (inject_Z (height w - 2))
                              usage_hint])).
Proof.
  intros Htwo. unfold draw_preview_bar.
  destruct (_curves w) as [|c0 [|c1 [|c2 rest]]] eqn:Hcurves; cbn [length take].
  - rewrite decide_True by done. rewrite decide_True by done.
    exists []. by rewrite !app_nil_r.
  - rewrite decide_False by done. rewrite decide_True by done.
    rewrite (decide_False (P := [c0] = [])) by done.
    cbn [mbind result_bind py_index lookup list_lookup].
    rewrite (foldM_paint _
               (fun i => bar_column_cmds
                           (bar_channel (get_value (heap w c0)
                                           (inject_Z i / inject_Z (plot_width w))),
                            bar_channel (get_value (heap w c0)
                                           (inject_Z i / inject_Z (plot_width w))),
                            bar_channel (get_value (heap w c0)
                                           (inject_Z i / inject_Z (plot_width w)))) i)).
    + exists (concat ((fun i => bar_column_cmds
                           (bar_channel (get_value (heap w c0)
                                           (inject_Z i / inject_Z (plot_width w))),
                            bar_channel (get_value (heap w c0)
                                           (inject_Z i / inject_Z (plot_width w))),
                            bar_channel (get_value (heap w c0)
                                           (inject_Z i / inject_Z (plot_width w)))) i)
                        <$> py_range (plot_width w - 1))).
      cbn [mbind result_bind]. unfold paint. by rewrite <- !app_assoc.
    + intros p i Hi. apply elem_of_seqZ in Hi. unfold draw_bar_column.
      rewrite py_div_ok by (rewrite inject_Z_eq0; lia).
      cbn [mbind result_bind]. unfold paint, bar_column_cmds.
      by rewrite <- app_assoc.
  - rewrite decide_False by done. rewrite decide_False by done.
    rewrite (decide_False (P := [c0; c1] = [])) by done.
    rewrite bind_Return.
    unfold py_range. rewrite seqZ_nil by (specialize (Htwo eq_refl); lia).
    cbn [foldM mbind result_bind].
    exists []. unfold paint. by rewrite <- !app_assoc.
  - rewrite decide_False by done. rewrite decide_False by done.
    rewrite (decide_False (P := c0 :: c1 :: c2 :: rest = [])) by done.
    rewrite bind_Return.
    rewrite (foldM_paint _
               (fun i => bar_column_cmds (bar_rgb get_value w c0 c1 c2 i) i))
      by (intros; by apply draw_bar_column_rgb).
    exists (concat ((fun i => bar_column_cmds (bar_rgb get_value w c0 c1 c2 i) i)
                      <$> py_range (plot_width w - 1))).
    cbn [mbind result_bind]. unfold paint. by rewrite <- !app_assoc.
Qed.

Lemma _draw_returns_only w painter out :
  _draw get_value w painter = Return out ->
  plot_height w <> 0 /\
  (plot_width w = 1 -> _curves w = []) /\
  (length (_curves w) = 2%nat -> plot_width w < 2).
Proof.
  intros Hrun. pose proof (_draw_cases w painter) as Hcases.
  destruct (decide (plot_height w = 0)) as [Hh|Hh]; [congruence|].
  destruct (decide (plot_width w = 1 /\ _curves w <> [])) as [[Hw Hc]|Hok]; [congruence|].
  destruct Hcases as [before Hdraw]. rewrite Hdraw in Hrun.
  split; [done|]. split.
  - intros Hw. destruct (_curves w); [done|]. exfalso. by apply Hok.
  - intros Htwo. destruct (Z_lt_ge_dec (plot_width w) 2) as [|Hge]; [done|].
    exfalso. unfold draw_preview_bar in Hrun.
    destruct (_curves w) as [|c0 [|c1 [|c2 rest]]]; try done.
    cbn [length take] in Hrun.
    rewrite decide_False in Hrun by done. rewrite decide_False in Hrun by done.
    rewrite bind_Return in Hrun.
    unfold py_range in Hrun. rewrite seqZ_cons in Hrun by lia.
    rewrite (foldM_raise _ _ _ _ IndexError) in Hrun; [done|].
    unfold draw_bar_column.
    rewrite py_div_ok by (rewrite inject_Z_eq0; lia).
    done.
Qed.

(** [_draw] returns exactly when the plot has a height, its width is not 1
    unless there is no curve, and there are not exactly two curves on a plot
    of two or more columns.  In every other case it raises. *)
Theorem draw_returns_iff w painter :
  (exists out, _draw get_value w painter = Return out) <->
  plot_height w <> 0 /\
  (plot_width w = 1 -> _curves w = []) /\
  (length (_curves w) = 2%nat -> plot_width w < 2).
Proof.
  split.
  - intros [out Hrun]. by apply (_draw_returns_only w painter out).
  - intros (Hh & Hw & Htwo).
    pose proof (_draw_cases w painter) as Hcases.
    rewrite decide_False in Hcases by done.
    rewrite decide_False in Hcases by (intros [Hw1 Hc]; by apply Hc, Hw).
    destruct Hcases as [before ->].
    destruct (draw_preview_bar_returns w
                (before ++ [SetBrush (255, 0, 0); SetPen (110, 110, 110);
                            DrawRect 51 9 (inject_Z (plot_width w)) 10]) Htwo)
      as [columns ->].
    by eexists.
Qed.

(** What [_draw] paints last: without curves it stops after the background
    of the preview bar, so neither the marker of the current time nor the
    usage hint is painted; with curves, whenever it returns, the marker line
    at [_legend_border + _current_time * canvas_width] and the usage hint
    are the last things painted. *)
Theorem draw_ends w painter out :
  _draw get_value w painter = Return out ->
  exists before,
    out = before ++
      (if decide (_curves w = [])
       then [SetBrush (255, 0, 0); SetPen (110, 110, 110);
             DrawRect 51 9 (inject_Z (plot_width w)) 10]
       else [SetDashPen (255, 100, 100);
             DrawLine (inject_Z _legend_border + _current_time w * inject_Z (plot_width w))
                      (inject_Z _bar_h)
                      (inject_Z _legend_border + _current_time w * inject_Z (plot_width w))
                      (inject_Z (_bar_h + plot_height w));
             SetPen (100, 100, 100);
             DrawText (inject_Z (_legend_border - 2)) (inject_Z (height w - 2))
                      usage_hint]).
Proof.
  intros Hrun.
  destruct (_draw_returns_only w painter out Hrun) as (Hh & Hw & Htwo).
  pose proof (_draw_cases w painter) as Hcases.
  rewrite decide_False in Hcases by done.
  rewrite decide_False in Hcases by (intros [? ?]; auto).
  destruct Hcases as [before Hdraw]. rewrite Hdraw in Hrun.
  destruct (draw_preview_bar_returns w
              (before ++ [SetBrush (255, 0, 0); SetPen (110, 110, 110);
                          DrawRect 51 9 (inject_Z (plot_width w)) 10]) Htwo)
    as [columns Hbar].
  rewrite Hbar in Hrun. injection Hrun as <-.
  destruct (decide (_curves w = [])) as [Hc|Hc].
  - unfold draw_preview_bar in Hbar. rewrite Hc in Hbar. simpl in Hbar.
    injection Hbar as Hbar. rewrite app_nil_r in Hbar.
    apply (f_equal length) in Hbar. rewrite !length_app in Hbar.
    destruct columns; [|simpl in Hbar; lia].
    exists before. by rewrite !app_nil_r.
  - exists ((before ++ [SetBrush (255, 0, 0); SetPen (110, 110, 110);
                        DrawRect 51 9 (inject_Z (plot_width w)) 10]) ++ columns).
    by rewrite <- !app_assoc.
Qed.

End DrawingFaults.

Lemma draw_ends_witness :
  exists before,
    match paintEvent linear_get_value (widget_of 400 300 []) with
    | Return out => out
    | Raise _ => []
    end
    = before ++
      (if decide (_curves (widget_of 400 300 []) = [])
       then [SetBrush (255, 0, 0); SetPen (110, 110, 110);
             DrawRect 51 9 (inject_Z (plot_width (widget_of 400 300 []))) 10]
       else [SetDashPen (255, 100, 100);
             DrawLine (inject_Z _legend_border
                         + _current_time (widget_of 400 300 [])
                           * inject_Z (plot_width (widget_of 400 300 [])))
                      (inject_Z _bar_h)
                      (inject_Z _legend_border
                         + _current_time (widget_of 400 300 [])
                           * inject_Z (plot_width (widget_of 400 300 [])))
                      (inject_Z (_bar_h + plot_height (widget_of 400 300 [])));
             SetPen (100, 100, 100);
             DrawText (inject_Z (_legend_border - 2))
                      (inject_Z (height (widget_of 400 300 []) - 2))
                      usage_hint]).
Proof.
  apply (draw_ends linear_get_value (widget_of 400 300 []) []).
  vm_compute. reflexivity.
Defined.

Section GrayBar.

Variable get_value : Curve -> Q -> Q.

(** With exactly one curve displayed, [_draw] paints the preview bar in
    gray: the pen of column [i] has the same value on all three channels,
    the sample of the curve at [i / canvas_width] times 255, truncated and
    clamped to [0,255]. *)
Theorem preview_bar_gray w painter c :
  _curves w = [c] ->
  plot_height w <> 0 -> plot_width w <> 1 ->
  exists before after,
    _draw get_value w painter
    = Return (before
              ++ concat ((fun i =>
                            let val := Z.max 0 (Z.min 255 (py_int
                                         (get_value (heap w c)
                                            (inject_Z i / inject_Z (plot_width w)) * 255))) in
                            bar_column_cmds (val, val, val) i)
                           <$> py_range (plot_width w - 1))
              ++ after).
Proof.
  intros Hcurves Hh Hw.
  destruct (_draw_reaches_bar get_value w painter Hh Hw) as [p1 ->].
  unfold draw_preview_bar. rewrite Hcurves. cbn [length].
  rewrite decide_False by done. rewrite decide_True by done.
  cbn [mbind result_bind py_index lookup list_lookup].
  rewrite (foldM_paint _
             (fun i => let val := Z.max 0 (Z.min 255 (py_int
                                    (get_value (heap w c)
                                       (inject_Z i / inject_Z (plot_width w)) * 255))) in
                       bar_column_cmds (val, val, val) i)).
  - cbn [mbind result_bind]. unfold paint.
    exists p1. eexists. rewrite <- !app_assoc. reflexivity.
  - intros p i Hi. apply elem_of_seqZ in Hi. unfold draw_bar_column.
    rewrite py_div_ok by (rewrite inject_Z_eq0; lia).
    cbn [mbind result_bind]. unfold paint, bar_column_cmds, bar_channel.
    by rewrite <- app_assoc.
Qed.

End GrayBar.

Lemma preview_bar_gray_witness :
  exists before after,
    paintEvent linear_get_value (widget_of 400 300 [mid_point_curve])
    = Return (before
              ++ concat ((fun i =>
                            let val := Z.max 0 (Z.min 255 (py_int
                                         (linear_get_value
                                            (heap (widget_of 400 300 [mid_point_curve]) 0%nat)
                                            (inject_Z i / inject_Z
                                               (plot_width (widget_of 400 300 [mid_point_curve])))
                                          * 255))) in
                            bar_column_cmds (val, val, val) i)
                           <$> py_range (plot_width (widget_of 400 300 [mid_point_curve]) - 1))
              ++ after).
Proof.
  apply (preview_bar_gray linear_get_value (widget_of 400 300 [mid_point_curve]) [] 0%nat).
  - reflexivity.
  - discriminate.
  - discriminate.
Defined.

(** ** Release, delete key, curve set and current time *)

(** After a release a move does nothing, the selection is still the one
    before the release, and the delete key removes the selected point just
    as it would have without the release. *)
Theorem release_ends_drag_only w :
  (forall pos_x pos_y,
     mouseMoveEvent pos_x pos_y (mouseReleaseEvent w) = Return (mouseReleaseEvent w)) /\
  _selected_point (mouseReleaseEvent w) = _selected_point w /\
  (_selected_point w <> None ->
   keyPressEvent true (mouseReleaseEvent w) = keyPressEvent true w).
Proof.
  split; [|split].
  - intros pos_x pos_y. apply mouseMoveEvent_idle. by right.
  - done.
  - intros Hsel. simpl. unfold delete_current_point.
    change (_selected_point (mouseReleaseEvent w)) with (_selected_point w).
    destruct (_selected_point w) as [[ci pi]|]; [|done].
    change (_curves (mouseReleaseEvent w)) with (_curves w).
    destruct (py_index (_curves w) ci) as [r|e]; [|done].
    rewrite !bind_Return.
    change (heap (mouseReleaseEvent w)) with (heap w).
    by destruct (remove_cv (heap w r) pi).
Qed.

Lemma release_ends_drag_only_witness :
  keyPressEvent true
    (mouseReleaseEvent
       (set__drag_point (Some (0%nat, 0%nat, (4, 0)%Q))
          (set__selected_point (Some (0, 0)%nat) (widget_of 400 300 [mid_point_curve]))))
  = keyPressEvent true
      (set__drag_point (Some (0%nat, 0%nat, (4, 0)%Q))
         (set__selected_point (Some (0, 0)%nat) (widget_of 400 300 [mid_point_curve]))).
Proof.
  apply (proj2 (proj2 (release_ends_drag_only
           (set__drag_point (Some (0%nat, 0%nat, (4, 0)%Q))
              (set__selected_point (Some (0, 0)%nat)
                 (widget_of 400 300 [mid_point_curve])))))).
  discriminate.
Defined.

(** The delete key acts once: after it has been handled, pressing it again
    changes nothing and does not call the change handler. *)
Theorem delete_key_twice w w1 :
  keyPressEvent true w = Return w1 -> keyPressEvent true w1 = Return w1.
Proof.
  simpl. unfold delete_current_point at 1. intros Hrun.
  destruct (_selected_point w) as [[ci pi]|] eqn:Hsel.
  - destruct (py_index (_curves w) ci) as [r|e]; [|done].
    rewrite bind_Return in Hrun.
    destruct (remove_cv (heap w r) pi) as [c'|e]; [|done].
    rewrite bind_Return in Hrun. by injection Hrun as <-.
  - injection Hrun as <-. unfold delete_current_point. by rewrite Hsel.
Qed.

Lemma delete_key_twice_witness :
  keyPressEvent true
    (deleted (set__selected_point (Some (0, 1)%nat) (widget_of 400 300 [close_points_curve]))
       0%nat 1%nat)
  = Return (deleted (set__selected_point (Some (0, 1)%nat)
                       (widget_of 400 300 [close_points_curve])) 0%nat 1%nat).
Proof.
  apply (delete_key_twice
           (set__selected_point (Some (0, 1)%nat) (widget_of 400 300 [close_points_curve]))).
  reflexivity.
Defined.

(** Replacing the curve set leaves no selection behind: until the next
    press, neither a move nor the delete key touches the new curves or calls
    the change handler. *)
Theorem set_curves_resets curves w :
  let w' := set_curves curves w in
  _curves w' = curves /\
  _selected_point w' = None /\ _drag_point w' = None /\
  changes w' = changes w /\
  (forall pos_x pos_y, mouseMoveEvent pos_x pos_y w' = Return w') /\
  (forall is_delete, keyPressEvent is_delete w' = Return w').
Proof.
  intros w'. repeat split.
  - intros pos_x pos_y. apply mouseMoveEvent_idle. by right.
  - by intros [|].
Qed.

(** The current time is stored clamped to [0,1], so the marker line of
    [_draw], at [_legend_border + _current_time * canvas_width], lies between
    the left and the right edge of the plot. *)
Theorem time_marker_on_plot local_time w :
  let w' := set_current_time local_time w in
  let xoffs := (inject_Z _legend_border + _current_time w' * inject_Z (plot_width w'))%Q in
  0 <= plot_width w ->
  (0 <= _current_time w' <= 1)%Q /\
  (inject_Z _legend_border <= xoffs <= inject_Z (_legend_border + plot_width w))%Q /\
  ((local_time <= 0)%Q -> (xoffs == inject_Z _legend_border)%Q) /\
  ((1 <= local_time)%Q -> (xoffs == inject_Z (_legend_border + plot_width w))%Q).
Proof.
  intros w' xoffs Hw. unfold xoffs.
  change (_current_time w') with (Qmax 0 (Qmin 1 local_time)).
  change (plot_width w') with (plot_width w).
  rewrite inject_Z_plus.
  assert (HW : (0 <= inject_Z (plot_width w))%Q) by (unfold Qle; simpl; lia).
  destruct (clamp_bounds local_time) as [H0 H1].
  set (c := Qmax 0 (Qmin 1 local_time)) in *.
  set (W := inject_Z (plot_width w)) in *.
  assert (Hc0 : (0 <= c * W)%Q) by (by apply Qmult_le_0_compat).
  assert (Hc1 : (c * W <= W)%Q).
  { rewrite <- (Qmult_1_l W) at 2. by apply Qmult_le_compat_r. }
  split; [done|]. split; [split; lra|]. split.
  - intros Ht. unfold c. rewrite clamp_low by done. ring.
  - intros Ht. unfold c. rewrite clamp_high by done. ring.
Qed.

Lemma time_marker_on_plot_witness :
  (_current_time (set_current_time (3 # 2) (widget_of 400 300 [])) == 1)%Q /\
  (inject_Z _legend_border
   + _current_time (set_current_time (3 # 2) (widget_of 400 300 []))
     * inject_Z (plot_width (set_current_time (3 # 2) (widget_of 400 300 [])))
   == inject_Z (_legend_border + plot_width (widget_of 400 300 [])))%Q.
Proof.
  destruct (time_marker_on_plot (3 # 2) (widget_of 400 300 [])) as (_ & _ & _ & Hhigh).
  - vm_compute. discriminate.
  - split; [reflexivity|]. apply Hhigh. vm_compute. discriminate.
Defined.

(** ** File names of the exporter *)

Lemma py_replace_char_cons old new c rest :
  py_replace_char old new (String c rest)
  = if Ascii.eqb c old then new +:+ py_replace_char old new rest
    else String c (py_replace_char old new rest).
Proof. done. Qed.

Lemma to_safe_name_one_pass name : to_safe_name name = safe_name_pass name.
Proof.
  unfold to_safe_name. induction name as [|c rest IH]; [done|].
  cbn [safe_name_pass]. unfold unsafe_char.
  rewrite (py_replace_char_cons "\").
  destruct (Ascii.eqb_spec c "\") as [->|Hbs]; [exact IH|].
  rewrite (py_replace_char_cons "/").
  destruct (Ascii.eqb_spec c "/") as [->|Hsl]; [exact IH|].
  rewrite (py_replace_char_cons " ").
  destruct (Ascii.eqb_spec c " ") as [->|Hsp].
  { change ("_" +:+ ?t)%string with (String "_" t).
    rewrite (py_replace_char_cons ":"). cbn [Ascii.eqb]. simpl. by rewrite IH. }
  rewrite (py_replace_char_cons ":").
  destruct (Ascii.eqb_spec c ":") as [->|Hco]; [exact IH|].
  simpl. by rewrite IH.
Qed.

Lemma safe_name_pass_clean name :
  Forall (fun c => unsafe_char c = false)
         (String.list_ascii_of_string (safe_name_pass name)).
Proof.
  induction name as [|c rest IH]; [constructor|].
  cbn [safe_name_pass].
  destruct (Ascii.eqb c " ") eqn:Hsp.
  { cbn [String.list_ascii_of_string]. by constructor. }
  destruct (unsafe_char c) eqn:Hc; [exact IH|].
  cbn [String.list_ascii_of_string]. by constructor.
Qed.

Lemma safe_name_pass_fixed name :
  Forall (fun c => unsafe_char c = false) (String.list_ascii_of_string name) ->
  safe_name_pass name = name.
Proof.
  induction name as [|c rest IH]; [done|].
  cbn [String.list_ascii_of_string safe_name_pass]. intros Hall.
  inversion Hall as [|? ? Hc Hrest]; subst.
  rewrite Hc. rewrite (IH Hrest).
  unfold unsafe_char in Hc. apply orb_false_iff in Hc as [Hc _].
  apply orb_false_iff in Hc as [_ Hsp]. by rewrite Hsp.
Qed.

(** [to_safe_name], four replacements one after the other, is one pass over
    the name that drops backslash, slash and colon and turns each space into
    an underscore; none of these four characters is left in the result. *)
Theorem to_safe_name_pass name :
  to_safe_name name = safe_name_pass name /\
  Forall (fun c => unsafe_char c = false)
         (String.list_ascii_of_string (to_safe_name name)).
Proof.
  split; [apply to_safe_name_one_pass|].
  rewrite to_safe_name_one_pass. apply safe_name_pass_clean.
Qed.

(** [to_safe_name] leaves a name without backslash, slash, space and colon
    as it is, and applying it twice is the same as applying it once. *)
Theorem to_safe_name_idempotent name :
  (Forall (fun c => unsafe_char c = false) (String.list_ascii_of_string name) ->
   to_safe_name name = name) /\
  to_safe_name (to_safe_name name) = to_safe_name name.
Proof.
  split.
  - intros Hsafe. rewrite to_safe_name_one_pass. by apply safe_name_pass_fixed.
  - rewrite (to_safe_name_one_pass (to_safe_name name)).
    apply safe_name_pass_fixed.
    rewrite to_safe_name_one_pass. apply safe_name_pass_clean.
Qed.

Lemma to_safe_name_idempotent_witness :
  to_safe_name "obj-tree-GNleaf-0-Geom1.obj" = "obj-tree-GNleaf-0-Geom1.obj"%string.
Proof.
  apply (proj1 (to_safe_name_idempotent "obj-tree-GNleaf-0-Geom1.obj")).
  repeat constructor.
Defined.

(** ** The polyline of a curve *)

Section Polyline.

Variable get_value : Curve -> Q -> Q.

Lemma draw_curve_column_step w curve last painter i :
  plot_width w <> 1 ->
  draw_curve_column get_value w curve (plot_width w) (last, painter) i
  = Return (curve_height get_value w curve i,
            paint (DrawLine (inject_Z (_legend_border + i - 1))
                     (if i =? 0 then curve_height get_value w curve i else last)
                     (inject_Z (_legend_border + i))
                     (curve_height get_value w curve i)) painter).
Proof.
  intros Hw. unfold draw_curve_column.
  by rewrite py_div_ok by (by rewrite inject_Z_minus1_eq0).
Qed.

Lemma draw_curve_columns w curve (n : nat) :
  plot_width w <> 1 ->
  forall m last painter,
    0 <= m ->
    (m = 0 \/ last = curve_height get_value w curve (m - 1)) ->
    exists last',
      foldM (draw_curve_column get_value w curve (plot_width w)) (last, painter)
            (seqZ m (Z.of_nat n))
      = Return (last', painter ++ (polyline_segment get_value w curve
                                     <$> seqZ m (Z.of_nat n))).
Proof.
  intros Hw. induction n as [|n IH]; intros m last painter Hm Hlast.
  - exists last. simpl. by rewrite app_nil_r.
  - rewrite seqZ_cons by lia.
    replace (Z.pred (Z.of_nat (S n))) with (Z.of_nat n) by lia.
    rewrite foldM_cons, draw_curve_column_step, bind_Return by done.
    destruct (IH (Z.succ m) (curve_height get_value w curve m)
                (paint (DrawLine (inject_Z (_legend_border + m - 1))
                          (if m =? 0 then curve_height get_value w curve m else last)
                          (inject_Z (_legend_border + m))
                          (curve_height get_value w curve m)) painter))
      as [last' ->]; [lia | right; f_equal; lia |].
    exists last'. f_equal. f_equal. unfold paint. rewrite <- app_assoc.
    f_equal. rewrite fmap_cons. f_equal. unfold polyline_segment.
    destruct (Z.eqb_spec m 0) as [->|Hne]; [done|].
    destruct Hlast as [Hm0|Hl]; [done | by rewrite Hl].
Qed.

(** [_draw] plots a curve as a polyline in the colour of the curve: one
    segment per pixel column of the plot, sampled at the offsets
    [i / (canvas_width - 1)], each segment starting where the one before
    ended; the markers of the control points follow. *)
Theorem curve_polyline w painter index curve :
  plot_width w <> 1 ->
  exists markers,
    draw_curve get_value w (plot_width w) (plot_height w) painter (index, curve)
    = Return (painter
              ++ [SetPen (get_color (heap w curve))]
              ++ (polyline_segment get_value w curve <$> py_range (plot_width w))
              ++ [SetBrush (240, 240, 240)]
              ++ markers) /\
    length markers = (2 * length (get_cv_points (heap w curve)))%nat.
Proof.
  intros Hw. unfold draw_curve, py_range.
  assert (Hrange : seqZ 0 (plot_width w) = seqZ 0 (Z.of_nat (Z.to_nat (plot_width w))))
    by (unfold seqZ; by rewrite Nat2Z.id).
  rewrite Hrange.
  destruct (draw_curve_columns w curve (Z.to_nat (plot_width w)) Hw 0 0%Q
              (paint (SetPen (get_color (heap w curve))) painter))
    as [last' ->]; [lia | by left |].
  cbn [mbind result_bind].
  set (marker := fun cv : nat * (Q * Q) =>
         let '(cv_index, (x, y)) := cv in
         [SetPen (if match _selected_point w with
                     | Some (s0, s1) =>
                         bool_decide (s0 = index) && bool_decide (s1 = cv_index)
                     | None => false
                     end
                  then (255, 0, 0) else (100, 100, 100));
          DrawRect (x * inject_Z (plot_width w) + inject_Z _legend_border
                    - inject_Z _cv_point_size)
                   ((1 - y) * inject_Z (plot_height w) + inject_Z _bar_h
                    - inject_Z _cv_point_size)
                   (inject_Z (2 * _cv_point_size)) (inject_Z (2 * _cv_point_size))]).
  rewrite (foldM_paint _ marker).
  - exists (concat (marker <$> enumerate (get_cv_points (heap w curve)))).
    split.
    + unfold paint. by rewrite <- !app_assoc.
    + unfold enumerate. generalize (@pair nat (Q * Q)).
      induction (get_cv_points (heap w curve)) as [|[x y] pts IH]; intros f; [done|].
      rewrite imap_cons, fmap_cons. cbn [concat]. rewrite length_app, IH.
      unfold marker. destruct (f 0%nat (x, y)) as [? [? ?]]. simpl. lia.
  - intros p [cv_index [x y]] _. unfold draw_cv_point, marker, paint.
    destruct (match _selected_point w with Some _ => _ | None => _ end);
      by rewrite <- app_assoc.
Qed.

End Polyline.

Lemma curve_polyline_witness :
  exists markers,
    draw_curve linear_get_value (widget_of 400 300 [mid_point_curve])
      (plot_width (widget_of 400 300 [mid_point_curve]))
      (plot_height (widget_of 400 300 [mid_point_curve])) [] (0%nat, 0%nat)
    = Return ([]
              ++ [SetPen (get_color (heap (widget_of 400 300 [mid_point_curve]) 0%nat))]
              ++ (polyline_segment linear_get_value (widget_of 400 300 [mid_point_curve]) 0%nat
                    <$> py_range (plot_width (widget_of 400 300 [mid_point_curve])))
              ++ [SetBrush (240, 240, 240)]
              ++ markers) /\
    length markers
    = (2 * length (get_cv_points (heap (widget_of 400 300 [mid_point_curve]) 0%nat)))%nat.
Proof.
  apply (curve_polyline linear_get_value (widget_of 400 300 [mid_point_curve]) [] 0%nat 0%nat).
  discriminate.
Defined.
